(** * dataviews.interface: the Pandas compatibility wrapper

    A shallow embedding of [src/dataviews/interface.py]: the [DFrameView]
    wrapper around a Pandas data frame (indexing, selection, copying and
    the conversion to Table and HeatMap views) and the style handling of
    [DFramePlot].

    Python objects that are compared by identity or mutated (data frames,
    wrappers) live in a heap and are passed around as references; the
    frame operations of the host library that the module calls are pure
    functions on the contents of a frame. *)

From stdpp Require Import gmap strings list fin_maps.
From Stdlib Require Import ZArith.

Local Open Scope string_scope.
Local Open Scope list_scope.
Local Open Scope stdpp_scope.

(** ** Scalar values and exceptions *)

(** The scalars a cell, a row identifier or a key component can hold.
    An integer is held as its value; the integer cells of a frame are
    64-bit integers, which shows where they are added ([py_sum]). *)
Inductive value :=
  | VInt (z : Z)
  | VStr (s : string).

#[global] Instance value_eq_dec : EqDecision value.
Proof. solve_decision. Defined.

(** [==] on scalars. *)
Definition value_eqb (a b : value) : bool := bool_decide (a = b).

(** Truth value of a scalar in a condition. *)
Definition truthy (v : value) : bool :=
  match v with
  | VInt z => negb (z =? 0)%Z
  | VStr s => negb (bool_decide (s = EmptyString))
  end.

(** The exception classes the module and the frame library raise. *)
Inductive exc_class :=
  | Exception
  | TypeError
  | KeyError
  | IndexError
  | ValueError
  | RuntimeError.

#[global] Instance exc_class_eq_dec : EqDecision exc_class.
Proof. solve_decision. Defined.

(** [issubclass c d]: every class derives from [Exception]; the four
    others are unrelated to one another. *)
Definition issubclass (c d : exc_class) : bool :=
  match d with
  | Exception => true
  | _ => bool_decide (c = d)
  end.

(** The outcome of a call: a value, or a raised exception with its
    class and message. *)
Inductive result (A : Type) :=
  | Ok (a : A)
  | Raise (c : exc_class) (msg : string).
Arguments Ok {A} a.
Arguments Raise {A} c msg.

#[global] Instance result_ret : MRet result := λ A a, Ok a.
#[global] Instance result_bind : MBind result := λ A B f r,
  match r with
  | Ok a => f a
  | Raise c msg => Raise c msg
  end.

#[global] Instance result_fmap : FMap result := λ A B f r,
  match r with
  | Ok a => Ok (f a)
  | Raise c msg => Raise c msg
  end.

Definition is_ok {A} (r : result A) : bool :=
  match r with Ok _ => true | Raise _ _ => false end.

(** A loop whose body may raise: the first exception ends it. *)
Fixpoint foldM {A B} (f : B → A → result B) (b : B) (l : list A) : result B :=
  match l with
  | [] => Ok b
  | x :: l' => b' ← f b x; foldM f b' l'
  end.

(** A comprehension whose element expression may raise. *)
Fixpoint mapR {A B} (f : A → result B) (l : list A) : result (list B) :=
  match l with
  | [] => Ok []
  | x :: l' => y ← f x; ys ← mapR f l'; Ok (y :: ys)
  end.

Definition from_option {A} (o : option A) (c : exc_class) (msg : string) : result A :=
  match o with
  | Some a => Ok a
  | None => Raise c msg
  end.

(** [<] on scalars: numbers among themselves, strings among themselves
    lexicographically; a number and a string cannot be ordered, and
    comparing them raises. *)
Definition value_lt (a b : value) : result bool :=
  match a, b with
  | VInt x, VInt y => Ok (x <? y)%Z
  | VStr s, VStr t => Ok (String.ltb s t)
  | _, _ => Raise TypeError "'<' not supported between instances of 'int' and 'str'"
  end.

(** ** Dictionaries in insertion order *)

(** [OrderedDict], and [dict] where the iteration order is passed on: an
    association list with one entry per key, in the order of first
    insertion. *)
Section Dict.
Context {K V : Type} `{EqDecision K}.

(** [d[k] = v] *)
Fixpoint dict_set (k : K) (v : V) (d : list (K * V)) : list (K * V) :=
  match d with
  | [] => [(k, v)]
  | (k', v') :: d' =>
      if decide (k' = k) then (k, v) :: d' else (k', v') :: dict_set k v d'
  end.

Fixpoint dict_get (k : K) (d : list (K * V)) : option V :=
  match d with
  | [] => None
  | (k', v') :: d' => if decide (k' = k) then Some v' else dict_get k d'
  end.

(** [del d[k]] *)
Definition dict_del (k : K) (d : list (K * V)) : list (K * V) :=
  filter (λ kv, kv.1 ≠ k) d.

(** [dict(pairs)] *)
Definition py_dict (pairs : list (K * V)) : list (K * V) :=
  foldl (λ d kv, dict_set kv.1 kv.2 d) [] pairs.
End Dict.

(** [d[k].append(v)] on a [defaultdict(list)]. *)
Definition dict_append {K V} `{EqDecision K} (k : K) (v : V)
    (d : list (K * list V)) : list (K * list V) :=
  dict_set k (default [] (dict_get k d) ++ [v]) d.

(** [l.index(x)]: the first position of [x]. *)
Fixpoint list_index `{EqDecision A} (x : A) (l : list A) : option nat :=
  match l with
  | [] => None
  | y :: l' => if decide (y = x) then Some 0%nat else S <$> list_index x l'
  end.

(** ** The frame library *)

(** A data frame: named columns, and rows that carry a row identifier
    (the label of the row in the frame's index) and one cell per column.
    Row identifiers need not be distinct. *)
Record DataFrame := {
  columns : list string;
  rows : list (value * list value)
}.

#[global] Instance DataFrame_eq_dec : EqDecision DataFrame.
Proof. solve_decision. Defined.

(** [df.index] and [df.values]. *)
Definition index (df : DataFrame) : list value := (rows df).*1.
Definition values (df : DataFrame) : list (list value) := (rows df).*2.

(** What a label-based lookup returns: a scalar when one row carries the
    label, a series when several do. *)
Inductive cell :=
  | Scalar (v : value)
  | Series (vs : list value).

#[global] Instance cell_eq_dec : EqDecision cell.
Proof. solve_decision. Defined.

(** The cell of a row in the column named [d]. *)
Definition row_cell (cols : list string) (row : list value) (d : string) : option value :=
  i ← list_index d cols; row !! i.

(** [df.filter(items)]: the columns named in [items] that the frame has,
    in the order of [items]. *)
Definition filter_items (items : list string) (df : DataFrame) : DataFrame :=
  let kept := filter (λ c, c ∈ columns df) items in
  {| columns := kept;
     rows := (λ r, (r.1, omap (row_cell (columns df) r.2) kept)) <$> rows df |}.

(** [df[mask]] for a boolean mask with one entry per row: the rows at
    which the mask is true. *)
Definition mask (keep : list bool) (df : DataFrame) : DataFrame :=
  {| columns := columns df;
     rows := (filter (λ rk, rk.2 = true) (zip (rows df) keep)).*1 |}.

(** [df.loc[ind, d]] *)
Definition loc_cell (df : DataFrame) (ind : value) (d : string) : result cell :=
  match filter (λ r, r.1 = ind) (rows df) with
  | [] => Raise KeyError "the label is not in the index"
  | [r] => v ← from_option (row_cell (columns df) r.2 d) KeyError
             "the column is not in the frame"; Ok (Scalar v)
  | rs => vs ← mapR (λ r, from_option (row_cell (columns df) r.2 d) KeyError
                           "the column is not in the frame") rs;
          Ok (Series vs)
  end.

(** The order in which the frame library sorts the values of group keys:
    numbers among themselves, strings lexicographically, a number before
    any string. *)
Definition sorts_before (a b : value) : bool :=
  match a, b with
  | VInt x, VInt y => (x <? y)%Z
  | VStr s, VStr t => String.ltb s t
  | VInt _, VStr _ => true
  | VStr _, VInt _ => false
  end.

(** Group keys are ordered lexicographically. *)
Fixpoint key_leb (a b : list value) : bool :=
  match a, b with
  | [], _ => true
  | _ :: _, [] => false
  | x :: a', y :: b' =>
      if decide (x = y) then key_leb a' b' else sorts_before x y
  end.

Fixpoint insert_key (k : list value) (ks : list (list value)) : list (list value) :=
  match ks with
  | [] => [k]
  | k' :: ks' => if key_leb k k' then k :: ks else k' :: insert_key k ks'
  end.

Definition sort_keys (ks : list (list value)) : list (list value) :=
  foldr insert_key [] ks.

(** [df.groupby(dims)], iterated: one (key, sub-frame) pair per distinct
    combination of values of the columns [dims], in the order of the
    keys, each sub-frame holding the rows of its key with their row
    identifiers. *)
Definition group_key (cols : list string) (dims : list string) (row : list value)
    : result (list value) :=
  mapR (λ d, from_option (row_cell cols row d) KeyError
               "the column is not in the frame") dims.

Definition groupby (dims : list string) (df : DataFrame)
    : result (list (list value * DataFrame)) :=
  keyed ← mapR (λ r, k ← group_key (columns df) dims r.2; Ok (k, r)) (rows df);
  Ok ((λ k, (k, {| columns := columns df;
                  rows := (filter (λ kr, kr.1 = k) keyed).*2 |}))
        <$> sort_keys (remove_dups keyed.*1)).

(** ** Keys and views *)

(** A key of the mapping a view is built from: a tuple of scalars, or a
    bare scalar. *)
Inductive key :=
  | KTuple (vs : list value)
  | KBare (v : value).

#[global] Instance key_eq_dec : EqDecision key.
Proof. solve_decision. Defined.

(** A key as the export builds it, before it is hashed: its components
    come from label-based lookups. *)
Inductive raw_key :=
  | RTuple (cs : list cell)
  | RBare (c : cell).

Definition scalar_of (c : cell) : option value :=
  match c with
  | Scalar v => Some v
  | Series _ => None
  end.

(** A series cannot be hashed, nor can a tuple that holds one. *)
Definition hash_key (k : raw_key) : result key :=
  match k with
  | RTuple cs => KTuple <$> from_option (mapM scalar_of cs) TypeError "unhashable type"
  | RBare c => KBare <$> from_option (scalar_of c) TypeError "unhashable type"
  end.

(** The views the export constructs, as the arguments their constructors
    receive: the mapping, the label, and the value and dimensions when
    they are passed. *)
Inductive view_type :=
  | Table
  | HeatMap.

Record ViewData := {
  view_type_of : view_type;
  view_dict : list (key * cell);
  view_label : string;
  view_value : option string;
  view_dimensions : option (list string)
}.

Inductive stack_type :=
  | TableStack
  | DataStack.

(** What an export returns: one view, or a stack of views by stack key. *)
Inductive exported :=
  | EView (v : ViewData)
  | EStack (t : stack_type) (dims : list string)
           (items : list (option (list value) * ViewData)).

(** ** The heap of Python objects *)

Definition ref := positive.

(** The attributes of a wrapper: the reference to its frame, the labels
    of its dimensions and its label. *)
Record View := {
  data : ref;
  dimensions : list string;
  label : string
}.

Inductive pyobj :=
  | ODataFrame (df : DataFrame)
  | ODFrameView (v : View)
  | OOther (repr : string).

(** A method runs on the heap and returns a value and the new heap, or
    raises. *)
Definition M (A : Type) : Type := gmap ref pyobj → result (A * gmap ref pyobj).

#[global] Instance M_ret : MRet M := λ A a h, Ok (a, h).
#[global] Instance M_bind : MBind M := λ A B f m h,
  match m h with
  | Ok (a, h') => f a h'
  | Raise c msg => Raise c msg
  end.

Definition raise {A} (c : exc_class) (msg : string) : M A := λ _, Raise c msg.

Definition lift {A} (r : result A) : M A := λ h,
  match r with
  | Ok a => Ok (a, h)
  | Raise c msg => Raise c msg
  end.

(** A new object gets a reference no live object has. *)
Definition alloc (o : pyobj) : M ref := λ h,
  let r := fresh (dom h) in Ok (r, <[r := o]> h).

Definition get_view (r : ref) : M View := λ h,
  match h !! r with
  | Some (ODFrameView v) => Ok (v, h)
  | _ => Raise TypeError "not a DFrameView"
  end.

Definition get_frame (r : ref) : M DataFrame := λ h,
  match h !! r with
  | Some (ODataFrame df) => Ok (df, h)
  | _ => Raise TypeError "not a DataFrame"
  end.

(** A loop in a method. *)
Fixpoint forM {A B} (f : B → A → M B) (b : B) (l : list A) : M B :=
  match l with
  | [] => mret b
  | x :: l' => b' ← f b x; forM f b' l'
  end.

(** A criterion of [select]: a scalar, or a slice with its two bounds. *)
Inductive criterion :=
  | CScalar (v : value)
  | CSlice (start stop : value).

Definition dimension_labels (v : View) : list string := dimensions v.
Definition ndims (v : View) : nat := length (dimensions v).

Module DFrameView.

(** [DFrameView(data, dimensions=..., label=...)] *)
Definition __init__ (data : ref) (dimensions : list string) (label : string) : M ref :=
  λ h,
    match h !! data with
    | Some (ODataFrame _) =>
        alloc (ODFrameView {| data := data; dimensions := dimensions; label := label |}) h
    | _ => Raise Exception "DataFrame View type requires Pandas dataframe as data."
    end.

(** Modelled from the spec: [View.clone], of the base class of the
    wrapper, is not among the sources. A clone is a new wrapper of the
    same class over the given data, with the parameters of the
    original. *)
Definition clone (self : ref) (data : ref) : M ref :=
  v ← get_view self;
  __init__ data (dimensions v) (label v).

(** Whether a cell meets a criterion: strictly between the bounds of a
    slice, or equal to a scalar. The comparisons with the bounds raise
    when the cell and a bound cannot be ordered. *)
Definition meets (k : criterion) (x : value) : result bool :=
  match k with
  | CSlice start stop =>
      above ← value_lt start x;
      below ← value_lt x stop;
      Ok (above && below)
  | CScalar v => Ok (value_eqb x v)
  end.

(** The entry of the mask of a criterion for one row. *)
Definition meets_row (cols : list string) (c : string * criterion) (row : list value)
    : result bool :=
  match row_cell cols row c.1 with
  | Some x => meets c.2 x
  | None => Ok false
  end.

(** One round of the loop of [select]: [df[dim]] needs the column, the
    criterion is evaluated on the whole column, which raises as soon as
    one comparison does, and the rows at which it holds make a new
    frame. *)
Definition select_step (df : ref) (c : string * criterion) : M ref :=
  fr ← get_frame df;
  if decide (c.1 ∈ columns fr) then
    keep ← lift (mapR (meets_row (columns fr) c) (values fr));
    alloc (ODataFrame (mask keep fr))
  else raise KeyError c.1.

Definition select (self : ref) (criteria : list (string * criterion)) : M ref :=
  v ← get_view self;
  df ← forM select_step (data v) criteria;
  clone self df.

Definition __getitem__ (self : ref) (key : list criterion) : M ref :=
  match key with
  | [] => mret self
  | _ =>
      v ← get_view self;
      if decide (length key = ndims v) then
        select self (py_dict (zip (dimension_labels v) key))
      else raise KeyError "key"
  end.

Definition dframe (self : ref) : M ref :=
  v ← get_view self;
  df ← get_frame (data v);
  alloc (ODataFrame df).

(** [dim_dict.get(d, d)] and [dim_dict[d]]: a dimension stands for
    its label. *)
Definition dim_dict_get (self : View) (d : string) : string := d.

Definition dim_dict_lookup (self : View) (d : string) : result string :=
  if decide (d ∈ dimension_labels self) then Ok d else Raise KeyError d.

Definition _create_table (self : View) (temp_dict : list (key * cell))
    (value_dim : string) (dims : list string) : result ViewData :=
  match dims with
  | [] => Ok {| view_type_of := Table; view_dict := temp_dict; view_label := label self;
                view_value := None; view_dimensions := None |}
  | _ => Ok {| view_type_of := Table; view_dict := temp_dict; view_label := label self;
               view_value := Some value_dim;
               view_dimensions := Some (dim_dict_get self <$> dims) |}
  end.

Definition _create_heatmap (self : View) (temp_dict : list (key * cell))
    (value_dim : string) (dims : list string) : result ViewData :=
  value ← dim_dict_lookup self value_dim;
  Ok {| view_type_of := HeatMap; view_dict := temp_dict; view_label := label self;
        view_value := Some value;
        view_dimensions := Some (dim_dict_get self <$> dims) |}.

(** The variables the loop over the stack elements reads and assigns. *)
Record loop_state := {
  ls_indices : list value;
  ls_view_dimensions : list string;
  ls_stack : list (option (list value) * ViewData)
}.

(** The reduction of one stack element. *)
Definition reduce_group (value_dim : string) (reduce_fn : list value → result value)
    (view_dims : list string) (stack_group : DataFrame) : result (list (key * cell)) :=
  let cols := columns stack_group in
  val_idx ← from_option (list_index value_dim cols) ValueError "not in list";
  vdim_inds ← mapR (λ d, from_option (list_index d cols) ValueError "not in list") view_dims;
  temp_dict ← foldM (λ (temp_dict : list (key * list value)) (row : list value),
      key ← match view_dims with
            | [] => Ok (KBare (VStr value_dim))
            | _ => KTuple <$> mapR (λ ind, from_option (row !! ind) IndexError
                                             "index out of bounds") vdim_inds
            end;
      x ← from_option (row !! val_idx) IndexError "index out of bounds";
      Ok (dict_append key x temp_dict)) [] (values stack_group);
  mapR (λ kv, r ← reduce_fn kv.2; Ok (kv.1, Scalar r)) temp_dict.

(** One round of the loop over the indices: the entry of the row [ind]
    is set in the mapping. *)
Definition select_row (value_dim : string) (indices : list value)
    (view_dims : list string) (stack_group : DataFrame)
    (temp_dict : list (key * cell)) (ind : value) : result (list (key * cell)) :=
  cells ← mapR (loc_cell stack_group ind) view_dims;
  let key := if decide (length indices = 1%nat) then cells else Scalar ind :: cells in
  key ← (if decide (1 < length key)%nat then Ok (RTuple key)
         else RBare <$> from_option (key !! 0%nat) IndexError "tuple index out of range");
  x ← loc_cell stack_group ind value_dim;
  k ← hash_key key;
  Ok (dict_set k x temp_dict).

(** The selection by indices in one stack element, for the indices in
    effect. *)
Definition select_group (value_dim : string) (indices : list value)
    (view_dims : list string) (stack_group : DataFrame) : result (list (key * cell)) :=
  foldM (select_row value_dim indices view_dims stack_group) [] indices.

(** The body of the loop over the stack elements. *)
Definition export_group (self : View) (value_dim : string)
    (reduce_fn : option (list value → result value)) (view_dims : list string)
    (view_method : View → list (key * cell) → string → list string → result ViewData)
    (st : loop_state) (g : option (list value) * DataFrame) : result loop_state :=
  let '(stack_key, stack_group) := g in
  match reduce_fn with
  | Some f =>
      temp_dict ← reduce_group value_dim f view_dims stack_group;
      view ← view_method self temp_dict value_dim (ls_view_dimensions st);
      Ok {| ls_indices := ls_indices st;
            ls_view_dimensions := ls_view_dimensions st;
            ls_stack := dict_set stack_key view (ls_stack st) |}
  | None =>
      let indices :=
        if decide (length (ls_indices st) = 1%nat) then ls_indices st
        else match ls_indices st with
             | [] => index stack_group
             | _ => ls_indices st
             end in
      let view_dimensions :=
        if decide (length (ls_indices st) = 1%nat) then ls_view_dimensions st
        else "Index" :: view_dims in
      temp_dict ← select_group value_dim indices view_dims stack_group;
      view ← view_method self temp_dict value_dim view_dimensions;
      Ok {| ls_indices := indices;
            ls_view_dimensions := view_dimensions;
            ls_stack := dict_set stack_key view (ls_stack st) |}
  end.

(** The conversion, on the attributes of the wrapper and the contents
    of its frame. *)
Definition export_frame (self : View) (frame : DataFrame) (value_dim : string)
    (indices : list value) (reduce_fn : option (list value → result value))
    (view_dims stack_dims : list string)
    (view_method : View → list (key * cell) → string → list string → result ViewData)
    (stack_type : stack_type) : result exported :=
  let selected_dims := value_dim :: view_dims ++ stack_dims in
  _ ← foldM (λ (_ : ()) dim,
        if decide (dim ∈ dimension_labels self) then Ok ()
        else Raise Exception ("DFrameView has no Dimension " +:+ dim +:+ "."))
      () selected_dims;
  let filter_dims := filter (λ d, d ∉ selected_dims) (dimension_labels self) in
  let df := match filter_dims with
            | [] => frame
            | _ => filter_items selected_dims frame
            end in
  stack_dfs ← match stack_dims with
              | [] => Ok [(None, df)]
              | _ => fmap (prod_map Some id) <$> groupby stack_dims df
              end;
  st ← foldM (export_group self value_dim reduce_fn view_dims view_method)
         {| ls_indices := indices; ls_view_dimensions := view_dims; ls_stack := [] |}
         stack_dfs;
  match stack_dims with
  | [] => EView <$> from_option (dict_get None (ls_stack st)) KeyError "None"
  | _ => Ok (EStack stack_type (dim_dict_get self <$> stack_dims) (ls_stack st))
  end.

Definition _export_dataview (self : ref) (value_dim : string) (indices : list value)
    (reduce_fn : option (list value → result value)) (view_dims stack_dims : list string)
    (view_method : View → list (key * cell) → string → list string → result ViewData)
    (stack_type : stack_type) : M exported :=
  v ← get_view self;
  frame ← get_frame (data v);
  lift (export_frame v frame value_dim indices reduce_fn view_dims stack_dims
          view_method stack_type).

Definition table (self : ref) (value_dim : string) (indices : list value)
    (reduce_fn : option (list value → result value)) (dims stack_dims : list string)
    : M exported :=
  _export_dataview self value_dim indices reduce_fn dims stack_dims _create_table TableStack.

(** [[index] if index else []] *)
Definition heatmap_indices (index : option value) : list value :=
  match index with
  | Some i => if truthy i then [i] else []
  | None => []
  end.

(** [1 > len(dims) > 2], a chained comparison. *)
Definition heatmap_guard (dims : list string) : bool :=
  (length dims <? 1)%nat && (2 <? length dims)%nat.

Definition heatmap (self : ref) (value_dim : string) (dims : list string)
    (index : option value) (reduce_fn : option (list value → result value))
    (stack_dims : list string) : M exported :=
  let indices := heatmap_indices index in
  if heatmap_guard dims then
    raise Exception "HeatMap supports either one or two dimensions"
  else
    _export_dataview self value_dim indices reduce_fn dims stack_dims
      _create_heatmap DataStack.

End DFrameView.

(** A 64-bit integer after an addition: the result wraps around. *)
Definition wrap64 (z : Z) : Z := ((z + 2 ^ 63) mod 2 ^ 64 - 2 ^ 63)%Z.

(** [sum], the builtin, as a reduction function on the cells of a frame
    of integers: the rows of [values] are then arrays of 64-bit
    integers, and an addition with such a cell wraps around. *)
Definition py_sum (vs : list value) : result value :=
  foldM (λ acc v,
      match acc, v with
      | VInt a, VInt b => Ok (VInt (wrap64 (a + b)))
      | _, _ => Raise TypeError "unsupported operand type(s) for +"
      end) (VInt 0) vs.

(** ** The plot adapter *)

(** What a style option or a plot parameter can hold. *)
Inductive style_value :=
  | SScalar (v : value)
  | STuple (vs : list value).

Module DFramePlot.

Inductive plot_type :=
  | plot
  | boxplot
  | hist
  | scatter_matrix.

#[global] Instance plot_type_eq_dec : EqDecision plot_type.
Proof. solve_decision. Defined.

Definition plot_type_name (t : plot_type) : string :=
  match t with
  | plot => "plot"
  | boxplot => "boxplot"
  | hist => "hist"
  | scatter_matrix => "scatter_matrix"
  end.

Definition plot_options : list (string * list string) :=
  [("plot", ["kind"; "stacked"; "xerr"; "yerr"; "share_x"; "share_y"; "table";
             "style"; "secondary_y"; "legend"; "logx"; "logy"; "position";
             "colormap"; "mark_right"]);
   ("hist", ["column"; "by"; "grid"; "xlabelsize"; "xrot"; "ylabelsize"; "yrot";
             "sharex"; "sharey"; "hist"; "layout"]);
   ("boxplot", ["column"; "by"; "fontsize"; "layout"; "grid"; "rot"]);
   ("scatter_matrix", ["alpha"; "grid"; "diagonal"; "marker"; "range_padding";
                       "hist_kwds"; "density_kwds"]);
   ("autocorrelation", ["kwds"])].

(** The attributes of the plot that rendering reads. *)
Record Plot := {
  plot_type_of : plot_type;
  size : style_value
}.

(** What the rendering has done at some point: the warnings it has
    emitted and the style set, a dictionary in insertion order. *)
Record rendering := {
  warnings : list string;
  style : list (string * style_value)
}.

Definition warning_text (k : string) (t : plot_type) : string :=
  "Plot option " +:+ k +:+ " does not apply to " +:+ plot_type_name t +:+ " plot type.".

(** The loop over [self.style.keys()], a view of the style set: [names]
    are the names the view has still to yield, and [changed] tells
    whether the style set has changed size since the loop started, in
    which case asking the view for the next name raises. The outcome is
    the state in which the loop exits and how it exits. *)
Fixpoint style_loop (t : plot_type) (names : list string) (changed : bool)
    (r : rendering) : rendering * result () :=
  if changed then (r, Raise RuntimeError "dictionary changed size during iteration")
  else
    match names with
    | [] => (r, Ok ())
    | k :: names' =>
        match dict_get (plot_type_name t) plot_options with
        | None => (r, Raise KeyError (plot_type_name t))
        | Some allowed =>
            if decide (k ∈ allowed) then style_loop t names' false r
            else
              let warned := warnings r ++ [warning_text k t] in
              match dict_get k (style r) with
              | Some _ =>
                  style_loop t names' true
                    {| warnings := warned; style := dict_del k (style r) |}
              | None => ({| warnings := warned; style := style r |}, Raise KeyError k)
              end
        end
    end.

Definition process_styles (t : plot_type) (style : list (string * style_value))
    : rendering * result () :=
  style_loop t style.*1 false {| warnings := []; style := style |}.

(** [__call__], up to the drawing: [composed] tells whether an axis was
    supplied, [ndims] is the number of dimensions of the view to draw
    and [style] the style set the options give for it. *)
Definition __call__ (self : Plot) (composed : bool) (ndims : nat)
    (style : list (string * style_value)) : result rendering :=
  if composed && bool_decide (plot_type_of self = scatter_matrix) then
    Raise Exception "Scatter Matrix plots can't be composed."
  else if composed && (1 <? ndims)%nat && bool_decide (plot_type_of self ∈ [hist]) then
    Raise Exception ("Multiple " +:+ plot_type_name (plot_type_of self)
                       +:+ " plots cannot be composed.")
  else
    let r := (process_styles (plot_type_of self) style).1 in
    _ ← (process_styles (plot_type_of self) style).2;
    let style := dict_set "figsize" (size self) (DFramePlot.style r) in
    let style :=
      if decide (plot_type_of self = boxplot)
      then dict_set "return_type" (SScalar (VStr "axes")) style
      else style in
    Ok {| warnings := warnings r; style := style |}.

(** [l[n]] on a list, for an integer that may be negative: a negative
    position counts from the end. *)
Definition py_list_get {A} (l : list A) (n : Z) : result A :=
  if (0 <=? n)%Z then
    from_option (l !! Z.to_nat n) IndexError "list index out of range"
  else if (- Z.of_nat (length l) <=? n)%Z then
    from_option (l !! Z.to_nat (Z.of_nat (length l) + n)) IndexError
      "list index out of range"
  else Raise IndexError "list index out of range".

(** What [update_frame] does up to the drawing: the position it settles
    on, the view it draws, and whether it clears and retitles the axis
    first. *)
Record frame_update (A : Type) := {
  position : Z;
  drawn : A;
  cleared : bool
}.
Arguments position {A} _.
Arguments drawn {A} _.
Arguments cleared {A} _.

(** Modelled from the spec: [len(self)], of the base class of the plot,
    is not among the sources; it is the number of frames of the stack,
    the length of [views]. *)
Definition update_frame {A} (self : Plot) (views : list A) (n : Z)
    : result (frame_update A) :=
  let n := if (n <? Z.of_nat (length views))%Z then n
           else (Z.of_nat (length views) - 1)%Z in
  dfview ← py_list_get views n;
  Ok {| position := n; drawn := dfview;
        cleared := negb (bool_decide (plot_type_of self ∈ [hist; scatter_matrix])) |}.

End DFramePlot.

(** ** Notions of the specification *)





(** The range of the 64-bit integers. *)
Definition int64 (z : Z) : Prop := (- 2 ^ 63 ≤ z < 2 ^ 63)%Z.

(** A frame of integers: every cell is a 64-bit integer, so that the
    rows of [values] are arrays of 64-bit integers. *)
Definition integer_frame (df : DataFrame) : Prop :=
  ∀ r x, r ∈ rows df → x ∈ r.2 → ∃ z, x = VInt z ∧ int64 z.

(** The arithmetic sum of a list of integers. *)
Definition sum_Z (zs : list Z) : Z := foldr Z.add 0%Z zs.

(** The key of a reduction when every row has the values [xs] in the view
    dimensions: the tuple of these values, or the name of the value
    dimension when there is no view dimension. *)
Definition shared_key (value_dim : string) (view_dims : list string) (xs : list value)
    : key :=
  match view_dims with
  | [] => KBare (VStr value_dim)
  | _ => KTuple xs
  end.

(** The key of a selected row: its row identifier, then its values in the
    view dimensions; a tuple of one component is the component. *)
Definition row_key (ind : value) (xs : list value) : key :=
  match xs with
  | [] => KBare ind
  | _ => KTuple (ind :: xs)
  end.

(** The leading component of a key. *)
Definition key_head (k : key) : option value :=
  match k with
  | KBare v => Some v
  | KTuple vs => head vs
  end.

(** The dictionary of the reduction while every row read so far had the
    key [k]: empty, or the one entry of [k]. *)
Definition collected (k : key) (vs : list value) : list (key * list value) :=
  match vs with
  | [] => []
  | _ => [(k, vs)]
  end.


(** The entry a selected row contributes: under the key of its row
    identifier and its values in the view dimensions, its value in the
    value dimension. *)
Definition row_entry (g : DataFrame) (value_dim : string) (view_dims : list string)
    (ind : value) (kv : key * cell) : Prop :=
  ∃ row xs x,
    (ind, row) ∈ rows g ∧
    mapM (row_cell (columns g) row) view_dims = Some xs ∧
    row_cell (columns g) row value_dim = Some x ∧
    kv = (row_key ind xs, Scalar x).

(** A frame is rectangular when every row has one cell per column. *)
Definition rectangular (df : DataFrame) : Prop :=
  ∀ r, r ∈ rows df → length r.2 = length (columns df).

(** The frame the export works on: the frame of the wrapper, or its
    restriction to the selected dimensions when the wrapper has others. *)
Definition working_frame (v : View) (frame : DataFrame) (selected_dims : list string)
    : DataFrame :=
  match filter (λ d, d ∉ selected_dims) (dimension_labels v) with
  | [] => frame
  | _ => filter_items selected_dims frame
  end.

(** The key of the one row an export with a single index selects: its
    values in the view dimensions, without the row identifier. *)
Definition plain_key (xs : list value) : option key :=
  match xs with
  | [] => None
  | [x] => Some (KBare x)
  | _ => Some (KTuple xs)
  end.

(** A row seen by the reduction: its key, from its values in the view
    dimensions, and its value in the value dimension. *)
Definition keyed_row (cols : list string) (value_dim : string) (view_dims : list string)
    (row : list value) (kv : key * value) : Prop :=
  ∃ xs, mapM (row_cell cols row) view_dims = Some xs ∧
        kv.1 = shared_key value_dim view_dims xs ∧
        row_cell cols row value_dim = Some kv.2.

(** The values of the rows that have the key [k], in the order of the
    rows. *)
Definition values_under (k : key) (krs : list (key * value)) : list value :=
  (filter (λ kv, kv.1 = k) krs).*2.

(** What the checks of the composition let through. *)
Definition legal_composition (self : DFramePlot.Plot) (composed : bool) (ndims : nat) : Prop :=
  composed = false ∨
  (DFramePlot.plot_type_of self ≠ DFramePlot.scatter_matrix ∧
   (DFramePlot.plot_type_of self ≠ DFramePlot.hist ∨ (ndims ≤ 1)%nat)).


(** * Properties *)

(** ** Example data *)

(** A frame of four rows with the default row identifiers 0 to 3: the
    column [s] splits it in two, every row has the same [x]. *)
Definition example_frame : DataFrame :=
  {| columns := ["s"; "x"; "v"];
     rows := [(VInt 0, [VInt 1; VInt 7; VInt 10]);
              (VInt 1, [VInt 1; VInt 7; VInt 20]);
              (VInt 2, [VInt 2; VInt 7; VInt 30]);
              (VInt 3, [VInt 2; VInt 7; VInt 40])] |}.

Definition example_view : View :=
  {| data := 1%positive; dimensions := ["s"; "x"; "v"]; label := "L" |}.

(** A heap with the frame at 1, a wrapper of it at 2 and an object that
    is no frame at 3. *)
Definition example_heap : gmap ref pyobj :=
  <[3%positive := OOther "[1, 2, 3]"]>
    (<[2%positive := ODFrameView example_view]>
       (<[1%positive := ODataFrame example_frame]> ∅)).


(** The working frame of the export of [v] stacked over [s]: the column
    [x], which is not selected, is filtered out. *)
Definition example_working_frame : DataFrame :=
  filter_items ["v"; "s"] example_frame.

(** Its two stack elements: the rows 0 and 1, and the rows 2 and 3. *)
Definition example_group_1 : DataFrame :=
  {| columns := ["v"; "s"];
     rows := [(VInt 0, [VInt 10; VInt 1]); (VInt 1, [VInt 20; VInt 1])] |}.

Definition example_group_2 : DataFrame :=
  {| columns := ["v"; "s"];
     rows := [(VInt 2, [VInt 30; VInt 2]); (VInt 3, [VInt 40; VInt 2])] |}.

(** A frame whose row identifiers repeat, as after a concatenation: the
    first stack element has the rows 0 and 1, the second the rows 0, 1
    and 2. *)
Definition repeated_labels_frame : DataFrame :=
  {| columns := ["s"; "v"];
     rows := [(VInt 0, [VInt 1; VInt 10]);
              (VInt 1, [VInt 1; VInt 20]);
              (VInt 0, [VInt 2; VInt 30]);
              (VInt 1, [VInt 2; VInt 40]);
              (VInt 2, [VInt 2; VInt 50])] |}.

Definition repeated_labels_heap : gmap ref pyobj :=
  <[2%positive := ODFrameView {| data := 1%positive; dimensions := ["s"; "v"];
                                 label := "L" |}]>
    (<[1%positive := ODataFrame repeated_labels_frame]> ∅).

(** A frame of two rows with the same [x], whose values are large: their
    sum, 2^63, does not fit in 64 bits. *)
Definition large_values_frame : DataFrame :=
  {| columns := ["x"; "v"];
     rows := [(VInt 0, [VInt 7; VInt (2 ^ 62)]);
              (VInt 1, [VInt 7; VInt (2 ^ 62)])] |}.

Definition large_values_heap : gmap ref pyobj :=
  <[2%positive := ODFrameView {| data := 1%positive; dimensions := ["x"; "v"];
                                 label := "L" |}]>
    (<[1%positive := ODataFrame large_values_frame]> ∅).
(** A decidable proposition about given data is settled by evaluating
    its decision procedure. *)
Ltac decide_by_computing :=
  match goal with
  | |- ?P => apply (@bool_decide_eq_true_1 P _); vm_compute; reflexivity
  end.

(** The cells of the example frame are small integers. *)
Lemma example_frame_integers : integer_frame example_frame.
Proof.
  intros r x Hr Hx.
  repeat (apply elem_of_cons in Hr as [->|Hr]); [| | | |by apply elem_of_nil in Hr];
    cbn [snd] in Hx;
    (repeat (apply elem_of_cons in Hx as [->|Hx]); [| | |by apply elem_of_nil in Hx]);
    (eexists; split; [reflexivity|unfold int64; lia]).
Qed.

(** ** The result monad *)

Lemma result_bind_ok {A B} (a : A) (f : A → result B) : (Ok a ≫= f) = f a.
Proof. reflexivity. Qed.

(** ** Allocation *)

Lemma alloc_fresh (o : pyobj) (h : gmap ref pyobj) :
  h !! fresh (dom h) = None.
Proof. apply not_elem_of_dom, is_fresh. Qed.

Lemma alloc_keeps (o : pyobj) (h : gmap ref pyobj) (r : ref) :
  is_Some (h !! r) → <[fresh (dom h) := o]> h !! r = h !! r.
Proof.
  intros Hr. apply lookup_insert_ne. intros <-.
  rewrite (alloc_fresh o) in Hr. by destruct Hr.
Qed.

(** ** Indexing *)

(** C6: indexing a wrapper with the empty tuple returns the wrapper
    itself, the same reference, and allocates nothing. *)
Theorem getitem_empty_is_self (self : ref) (h : gmap ref pyobj) :
  DFrameView.__getitem__ self [] h = Ok (self, h).
Proof. reflexivity. Qed.

(** ** Copying *)

(** C7: [dframe] returns a new frame object with the contents of the
    wrapper's frame; whatever is written to that object afterwards, the
    wrapper and its own frame stay as they were. *)
Theorem dframe_is_independent_copy (h : gmap ref pyobj) (self : ref) (v : View)
    (frame : DataFrame) :
  h !! self = Some (ODFrameView v) →
  h !! data v = Some (ODataFrame frame) →
  ∃ r h',
    DFrameView.dframe self h = Ok (r, h') ∧
    h !! r = None ∧ r ≠ data v ∧
    h' !! r = Some (ODataFrame frame) ∧
    ∀ o : pyobj,
      <[r := o]> h' !! self = Some (ODFrameView v) ∧
      <[r := o]> h' !! data v = Some (ODataFrame frame).
Proof.
  intros Hself Hdata.
  exists (fresh (dom h)), (<[fresh (dom h) := ODataFrame frame]> h).
  assert (Hfresh : h !! fresh (dom h) = None) by apply (alloc_fresh (OOther EmptyString)).
  split.
  { unfold DFrameView.dframe, mbind, M_bind, get_view, get_frame, alloc.
    by rewrite Hself, Hdata. }
  split; [done|]. split; [congruence|]. split; [apply lookup_insert_eq|].
  intros o. rewrite insert_insert_eq.
  split; (rewrite lookup_insert_ne; [done | congruence]).
Qed.

Lemma dframe_is_independent_copy_witness :
  ∃ r h',
    DFrameView.dframe 2%positive example_heap = Ok (r, h') ∧
    example_heap !! r = None ∧ r ≠ data example_view ∧
    h' !! r = Some (ODataFrame example_frame) ∧
    ∀ o : pyobj,
      <[r := o]> h' !! 2%positive = Some (ODFrameView example_view) ∧
      <[r := o]> h' !! data example_view = Some (ODataFrame example_frame).
Proof.
  apply (dframe_is_independent_copy example_heap 2%positive example_view example_frame);
    reflexivity.
Defined.

(** ** Construction *)

(** C8, as the spec has it, fails: constructing a wrapper over an object
    that is no frame raises an exception whose class is not [TypeError]
    nor derived from it. *)
Lemma init_error_is_not_a_TypeError :
  ∃ c msg,
    DFrameView.__init__ 3%positive ["s"; "x"; "v"] "L" example_heap = Raise c msg ∧
    issubclass c TypeError = false.
Proof. exists Exception. eexists. split; reflexivity. Qed.

(** C8, amended: constructing a wrapper over anything that is not a data
    frame fails, with the generic [Exception] and the message of the
    source. *)
Theorem init_rejects_non_frames (h : gmap ref pyobj) (data : ref)
    (dimensions : list string) (label : string) :
  (∀ df, h !! data ≠ Some (ODataFrame df)) →
  DFrameView.__init__ data dimensions label h
  = Raise Exception "DataFrame View type requires Pandas dataframe as data.".
Proof.
  intros Hno. unfold DFrameView.__init__.
  destruct (h !! data) as [[df| |]|] eqn:E; try reflexivity.
  by destruct (Hno df).
Qed.

Lemma init_rejects_non_frames_witness :
  DFrameView.__init__ 3%positive ["s"; "x"; "v"] "L" example_heap
  = Raise Exception "DataFrame View type requires Pandas dataframe as data.".
Proof.
  apply (init_rejects_non_frames example_heap 3%positive).
  intros df. vm_compute. discriminate.
Defined.

(** ** The dimension check of [heatmap] *)

Lemma heatmap_guard_false (dims : list string) : DFrameView.heatmap_guard dims = false.
Proof.
  unfold DFrameView.heatmap_guard.
  destruct (length dims <? 1)%nat eqn:E1; [|done].
  destruct (2 <? length dims)%nat eqn:E2; [|done].
  apply Nat.ltb_lt in E1, E2. lia.
Qed.

(** The check never fires: [heatmap] is the export, whatever the number
    of dimensions. *)
Lemma heatmap_is_export (self : ref) (value_dim : string) (dims : list string)
    (index : option value) (reduce_fn : option (list value → result value))
    (stack_dims : list string) :
  DFrameView.heatmap self value_dim dims index reduce_fn stack_dims
  = DFrameView._export_dataview self value_dim (DFrameView.heatmap_indices index)
      reduce_fn dims stack_dims DFrameView._create_heatmap DataStack.
Proof. unfold DFrameView.heatmap. by rewrite heatmap_guard_false. Qed.

(** C1 fails on the code: with three dimensions, and with none, [heatmap]
    raises nothing and returns the exported view. *)
Theorem heatmap_accepts_three_dims_and_none :
  (∃ view,
     DFrameView.heatmap 2%positive "v" ["s"; "x"; "v"] None (Some py_sum) [] example_heap
     = Ok (EView view, example_heap) ∧
     view_type_of view = HeatMap ∧
     view_dimensions view = Some ["s"; "x"; "v"]) ∧
  (∃ view,
     DFrameView.heatmap 2%positive "v" [] None (Some py_sum) [] example_heap
     = Ok (EView view, example_heap) ∧
     view_type_of view = HeatMap ∧
     view_dimensions view = Some []).
Proof. split; eexists; (split; [vm_compute; reflexivity | split; reflexivity]). Qed.

(** With the index 0 every row of the example is selected, where the
    index 1 selects the row 1 alone. *)
Example heatmap_index_zero_selects_all :
  ∃ view,
    DFrameView.heatmap 2%positive "v" ["x"] (Some (VInt 0)) None [] example_heap
    = Ok (EView view, example_heap) ∧
    view_dict view = [(KTuple [VInt 0; VInt 7], Scalar (VInt 10));
                      (KTuple [VInt 1; VInt 7], Scalar (VInt 20));
                      (KTuple [VInt 2; VInt 7], Scalar (VInt 30));
                      (KTuple [VInt 3; VInt 7], Scalar (VInt 40))].
Proof. eexists. split; [vm_compute; reflexivity | reflexivity]. Qed.

Example heatmap_index_one_selects_one :
  ∃ view,
    DFrameView.heatmap 2%positive "v" ["x"] (Some (VInt 1)) None [] example_heap
    = Ok (EView view, example_heap) ∧
    view_dict view = [(KBare (VInt 7), Scalar (VInt 20))].
Proof. eexists. split; [vm_compute; reflexivity | reflexivity]. Qed.
(** ** Selection and indexing *)

Section Select.
Import DFrameView.

Lemma M_bind_ok {A B} (m : M A) (f : A → M B) (h h' : gmap ref pyobj) (a : A) :
  m h = Ok (a, h') → (m ≫= f) h = f a h'.
Proof. intros H. unfold mbind, M_bind. by rewrite H. Qed.


Lemma get_view_ok (h : gmap ref pyobj) (r : ref) (v : View) :
  h !! r = Some (ODFrameView v) → get_view r h = Ok (v, h).
Proof. intros H. unfold get_view. by rewrite H. Qed.

Lemma get_frame_ok (h : gmap ref pyobj) (r : ref) (frame : DataFrame) :
  h !! r = Some (ODataFrame frame) → get_frame r h = Ok (frame, h).
Proof. intros H. unfold get_frame. by rewrite H. Qed.











(** A range keeps the rows strictly inside it: the rows whose cell is
    one of the bounds are left out. *)
Example select_range_is_strict :
  ∃ w h',
    select 2%positive [("v", CSlice (VInt 10) (VInt 40))] example_heap = Ok (w, h') ∧
    h' !! 4%positive
    = Some (ODataFrame {| columns := ["s"; "x"; "v"];
                          rows := [(VInt 1, [VInt 1; VInt 7; VInt 20]);
                                   (VInt 2, [VInt 2; VInt 7; VInt 30])] |}).
Proof. do 2 eexists. split; vm_compute; reflexivity. Qed.




(** X2: [select] without criteria returns a new wrapper that holds the
    very frame object of the original: the data is shared, not copied. *)
Theorem select_without_criteria_shares_frame (h : gmap ref pyobj) (self : ref)
    (v : View) (frame : DataFrame) :
  h !! self = Some (ODFrameView v) →
  h !! data v = Some (ODataFrame frame) →
  ∃ w,
    select self [] h = Ok (w, <[w := ODFrameView v]> h) ∧
    h !! w = None ∧ w ≠ self ∧
    <[w := ODFrameView v]> h !! data v = Some (ODataFrame frame).
Proof.
  intros Hself Hdata. exists (fresh (dom h)).
  assert (Hw : h !! fresh (dom h) = None) by apply (alloc_fresh (ODFrameView v)).
  split; [|split; [done|split; [congruence|]]].
  - unfold select. rewrite (M_bind_ok _ _ h h v (get_view_ok _ _ _ Hself)).
    change (forM select_step (data v) []) with (mret (M := M) (data v)).
    unfold clone, mbind at 1, M_bind, mret, M_ret.
    rewrite (M_bind_ok _ _ h h v (get_view_ok _ _ _ Hself)).
    unfold __init__. rewrite Hdata. by destruct v.
  - rewrite lookup_insert_ne; [done | congruence].
Qed.

Lemma select_without_criteria_shares_frame_witness :
  ∃ w,
    select 2%positive [] example_heap = Ok (w, <[w := ODFrameView example_view]> example_heap) ∧
    example_heap !! w = None ∧ w ≠ 2%positive ∧
    <[w := ODFrameView example_view]> example_heap !! data example_view
    = Some (ODataFrame example_frame).
Proof.
  apply (select_without_criteria_shares_frame example_heap 2%positive example_view
           example_frame); reflexivity.
Defined.






(** X4: indexing with a key that is not empty and has not one component
    per dimension raises [KeyError]. *)
Theorem getitem_wrong_length_raises (h : gmap ref pyobj) (self : ref) (v : View)
    (key : list criterion) :
  h !! self = Some (ODFrameView v) →
  key ≠ [] →
  length key ≠ ndims v →
  ∃ msg, __getitem__ self key h = Raise KeyError msg.
Proof.
  intros Hself Hkey Hlen. destruct key as [|k key]; [done|].
  eexists. unfold __getitem__.
  rewrite (M_bind_ok _ _ h h v (get_view_ok _ _ _ Hself)).
  by rewrite decide_False by done.
Qed.

Lemma getitem_wrong_length_raises_witness :
  ∃ msg, __getitem__ 2%positive [CScalar (VInt 1)] example_heap = Raise KeyError msg.
Proof.
  apply (getitem_wrong_length_raises example_heap 2%positive example_view); [reflexivity|done|].
  vm_compute. lia.
Defined.


End Select.

(** ** The indices of a stacked export *)

Section StackIndices.
Import DFrameView.

(** C2 fails on the code. In the export of [v] stacked over [s], with no
    reduction and no indices, the first stack element is read with its
    own row identifiers, 0 and 1, and the loop keeps them: the second
    element, whose row identifiers are 2 and 3, is read with 0 and 1
    again, and the lookup of 0 raises. *)
Theorem stacked_export_reuses_first_indices :
  groupby ["s"] example_working_frame
  = Ok [([VInt 1], example_group_1); ([VInt 2], example_group_2)] ∧
  index example_group_2 = [VInt 2; VInt 3] ∧
  (∃ st1,
     export_group example_view "v" None [] _create_table
       {| ls_indices := []; ls_view_dimensions := []; ls_stack := [] |}
       (Some [VInt 1], example_group_1) = Ok st1 ∧
     ls_indices st1 = [VInt 0; VInt 1] ∧
     export_group example_view "v" None [] _create_table st1
       (Some [VInt 2], example_group_2)
     = Raise KeyError "the label is not in the index") ∧
  table 2%positive "v" [] None [] ["s"] example_heap
  = Raise KeyError "the label is not in the index".
Proof.
  split; [reflexivity|]. split; [reflexivity|]. split; [|reflexivity].
  eexists. split; [reflexivity|]. split; reflexivity.
Qed.

(** Where the row identifiers of the first element occur in the second
    as well, nothing is raised and the rows of the second element with
    other identifiers are left out: here its row 2, with the value 50. *)
Example stacked_export_leaves_rows_out :
  ∃ view1 view2,
    table 2%positive "v" [] None [] ["s"] repeated_labels_heap
    = Ok (EStack TableStack ["s"] [(Some [VInt 1], view1); (Some [VInt 2], view2)],
          repeated_labels_heap) ∧
    view_dict view2 = [(KBare (VInt 0), Scalar (VInt 30));
                       (KBare (VInt 1), Scalar (VInt 40))].
Proof. do 2 eexists. split; [vm_compute; reflexivity | reflexivity]. Qed.
End StackIndices.

(** ** Reduction *)

Section Reduce.
Import DFrameView.

Lemma wrap64_add (a b : Z) : wrap64 (wrap64 a + b) = wrap64 (a + b).
Proof.
  unfold wrap64.
  replace ((a + 2 ^ 63) `mod` 2 ^ 64 - 2 ^ 63 + b + 2 ^ 63)%Z
    with ((a + 2 ^ 63) `mod` 2 ^ 64 + b)%Z by lia.
  rewrite Zplus_mod_idemp_l. do 2 f_equal. lia.
Qed.

(** A sum that fits in 64 bits is not changed. *)
Lemma wrap64_int64 (z : Z) : int64 z → wrap64 z = z.
Proof.
  unfold int64, wrap64. intros Hz.
  rewrite Z.mod_small by lia. lia.
Qed.

Lemma py_sum_from (a : Z) (zs : list Z) :
  foldM (λ acc v,
      match acc, v with
      | VInt a, VInt b => Ok (VInt (wrap64 (a + b)))
      | _, _ => Raise TypeError "unsupported operand type(s) for +"
      end) (VInt (wrap64 a)) (VInt <$> zs)
  = Ok (VInt (wrap64 (a + sum_Z zs))).
Proof.
  revert a. induction zs as [|z zs IH]; intros a.
  - cbn [fmap list_fmap foldM sum_Z foldr]. by rewrite Z.add_0_r.
  - rewrite fmap_cons. cbn [foldM]. rewrite result_bind_ok.
    rewrite wrap64_add, IH. cbn [sum_Z foldr]. by rewrite Z.add_assoc.
Qed.

(** [sum] of integers: their sum, wrapped to 64 bits. *)
Lemma py_sum_ints (zs : list Z) : py_sum (VInt <$> zs) = Ok (VInt (wrap64 (sum_Z zs))).
Proof. unfold py_sum. apply (py_sum_from 0 zs). Qed.

(** The positions of the view dimensions among the columns are found as
    soon as one row has a cell in each of them, and they read from any
    row the cells that [row_cell] reads. *)
Lemma view_dims_positions (cols : list string) (dims : list string) (row : list value)
    (xs : list value) :
  mapM (row_cell cols row) dims = Some xs →
  ∃ inds,
    mapR (λ d, from_option (list_index d cols) ValueError "not in list") dims = Ok inds ∧
    ∀ row' xs',
      mapM (row_cell cols row') dims = Some xs' →
      mapR (λ ind, from_option (row' !! ind) IndexError "index out of bounds") inds
      = Ok xs'.
Proof.
  revert xs. induction dims as [|d dims IH]; intros xs Hxs.
  - exists []. split; [done|]. by intros row' xs' [= <-].
  - simpl in Hxs.
    destruct (row_cell cols row d) as [x|] eqn:Hd; [|done]. simpl in Hxs.
    destruct (mapM (row_cell cols row) dims) as [xs0|] eqn:Hrest; [|done].
    destruct (IH xs0 eq_refl) as (inds & Hinds & Hread).
    unfold row_cell in Hd.
    destruct (list_index d cols) as [i|] eqn:Hi; [|done]. simpl in Hd.
    exists (i :: inds). split.
    + simpl. rewrite Hi. simpl. by rewrite Hinds.
    + intros row' xs' Hxs'. simpl in Hxs'.
      destruct (row_cell cols row' d) as [x'|] eqn:Hx'; [|done]. simpl in Hxs'.
      unfold row_cell in Hx'. rewrite Hi in Hx'. simpl in Hx'.
      destruct (mapM (row_cell cols row') dims) as [xs0'|] eqn:Hrest'; [|done].
      injection Hxs' as <-. simpl. rewrite Hx'. simpl.
      by rewrite (Hread row' xs0' Hrest').
Qed.

Lemma dict_append_collected (k : key) (x : value) (vs : list value) :
  dict_append k x (collected k vs) = collected k (vs ++ [x]).
Proof.
  unfold dict_append. destruct vs as [|v vs]; simpl; [done|].
  by rewrite !decide_True by done.
Qed.

Lemma collect_rows (key_of : list value → result key) (vi : nat) (k : key)
    (rs : list (list value)) (zs : list Z) (vs : list value) :
  Forall2 (λ row z, row !! vi = Some (VInt z)) rs zs →
  Forall (λ row, key_of row = Ok k) rs →
  foldM (λ (temp_dict : list (key * list value)) (row : list value),
      key ← key_of row;
      x ← from_option (row !! vi) IndexError "index out of bounds";
      Ok (dict_append key x temp_dict)) (collected k vs) rs
  = Ok (collected k (vs ++ (VInt <$> zs))).
Proof.
  intros Hzs. revert vs. induction Hzs as [|row z rs zs Hz _ IH]; intros vs Hkeys.
  - simpl. by rewrite app_nil_r.
  - apply Forall_cons in Hkeys as [Hk Hkeys]. simpl. rewrite Hk, Hz. simpl.
    rewrite dict_append_collected, (IH _ Hkeys).
    by rewrite <- app_assoc.
Qed.

(** The reduction, once the positions of the columns are found and the
    rows are collected. *)
Lemma reduce_group_steps (value_dim : string) (reduce_fn : list value → result value)
    (view_dims : list string) (g : DataFrame) (vi : nat) (inds : list nat)
    (temp_dict : list (key * list value)) :
  list_index value_dim (columns g) = Some vi →
  mapR (λ d, from_option (list_index d (columns g)) ValueError "not in list") view_dims
  = Ok inds →
  foldM (λ (temp_dict : list (key * list value)) (row : list value),
      key ← match view_dims with
            | [] => Ok (KBare (VStr value_dim))
            | _ => KTuple <$> mapR (λ ind, from_option (row !! ind) IndexError
                                             "index out of bounds") inds
            end;
      x ← from_option (row !! vi) IndexError "index out of bounds";
      Ok (dict_append key x temp_dict)) [] (values g)
  = Ok temp_dict →
  reduce_group value_dim reduce_fn view_dims g
  = mapR (λ kv, r ← reduce_fn kv.2; Ok (kv.1, Scalar r)) temp_dict.
Proof.
  intros Hvi Hinds Hloop. unfold reduce_group.
  rewrite Hvi. cbn [from_option]. rewrite result_bind_ok.
  rewrite Hinds, result_bind_ok.
  by rewrite Hloop, result_bind_ok.
Qed.

(** The reduction with [sum] of a stack element whose rows all have the
    same values in the view dimensions: one entry, the sum of the value
    column wrapped to 64 bits. *)
Lemma reduce_group_single_key (value_dim : string) (view_dims : list string)
    (g : DataFrame) (xs : list value) (zs : list Z) :
  values g ≠ [] →
  Forall2 (λ row z, row_cell (columns g) row value_dim = Some (VInt z)) (values g) zs →
  Forall (λ row, mapM (row_cell (columns g) row) view_dims = Some xs) (values g) →
  reduce_group value_dim py_sum view_dims g
  = Ok [(shared_key value_dim view_dims xs, Scalar (VInt (wrap64 (sum_Z zs))))].
Proof.
  intros Hne Hzs Hxs.
  assert (∃ row0, row0 ∈ values g) as [row0 Hrow0].
  { destruct (values g) as [|row0 rs]; [done|]. exists row0. by left. }
  assert (Hxs0 : mapM (row_cell (columns g) row0) view_dims = Some xs).
  { by apply (proj1 (Forall_forall _ _) Hxs). }
  destruct (view_dims_positions _ _ _ _ Hxs0) as (inds & Hinds & Hread).
  assert (∃ vi, list_index value_dim (columns g) = Some vi) as [vi Hvi].
  { destruct (values g) as [|r0 rs]; [done|].
    apply Forall2_cons_inv_l in Hzs as (z0 & zs0 & Hz0 & _ & _).
    unfold row_cell in Hz0.
    destruct (list_index value_dim (columns g)) as [vi|]; [by exists vi | done]. }
  assert (Hzne : zs ≠ []).
  { intros ->. apply Forall2_nil_inv_r in Hzs. done. }
  rewrite (reduce_group_steps value_dim py_sum view_dims g vi inds
             (collected (shared_key value_dim view_dims xs) ([] ++ (VInt <$> zs)))
             Hvi Hinds).
  - destruct zs as [|z0 zs0]; [done|].
    change ([] ++ (VInt <$> z0 :: zs0)) with (VInt <$> z0 :: zs0).
    change (collected (shared_key value_dim view_dims xs) (VInt <$> z0 :: zs0))
      with [(shared_key value_dim view_dims xs, VInt <$> z0 :: zs0)].
    cbn [mapR]. cbn [fst snd]. rewrite py_sum_ints. reflexivity.
  - apply (collect_rows
             (λ row, match view_dims with
                     | [] => Ok (KBare (VStr value_dim))
                     | _ => KTuple <$> mapR (λ ind, from_option (row !! ind) IndexError
                                                       "index out of bounds") inds
                     end) vi (shared_key value_dim view_dims xs) (values g) zs []).
    + eapply Forall2_impl; [exact Hzs|]. intros row z Hz. simpl in Hz.
      unfold row_cell in Hz. by rewrite Hvi in Hz.
    + eapply Forall_impl; [exact Hxs|]. intros row Hrow. simpl in Hrow.
      unfold shared_key. destruct view_dims as [|d ds]; [done|].
      by rewrite (Hread row xs Hrow).
Qed.

(** With a reduction the loop never reads the indices: loops that start
    with different indices build the same stack. *)
Lemma reduce_loop_ignores_indices (self : View) (value_dim : string)
    (f : list value → result value) (view_dims : list string)
    (view_method : View → list (key * cell) → string → list string → result ViewData)
    (groups : list (option (list value) * DataFrame)) (st st' : loop_state) :
  ls_view_dimensions st = ls_view_dimensions st' →
  ls_stack st = ls_stack st' →
  ls_stack <$> foldM (export_group self value_dim (Some f) view_dims view_method) st groups
  = ls_stack <$> foldM (export_group self value_dim (Some f) view_dims view_method) st' groups.
Proof.
  revert st st'. induction groups as [|[stack_key g] groups IH]; intros st st' Hdims Hstack.
  - simpl. by rewrite Hstack.
  - simpl. rewrite Hdims, Hstack.
    destruct (reduce_group value_dim f view_dims g) as [temp_dict|c msg]; [|done].
    simpl.
    destruct (view_method self temp_dict value_dim (ls_view_dimensions st'))
      as [view|c msg]; [|done].
    simpl. by apply IH.
Qed.

Lemma export_frame_reduce_ignores_indices (self : View) (frame : DataFrame)
    (value_dim : string) (indices indices' : list value)
    (f : list value → result value) (view_dims stack_dims : list string)
    (view_method : View → list (key * cell) → string → list string → result ViewData)
    (stack_type : stack_type) :
  export_frame self frame value_dim indices (Some f) view_dims stack_dims
    view_method stack_type
  = export_frame self frame value_dim indices' (Some f) view_dims stack_dims
      view_method stack_type.
Proof.
  unfold export_frame.
  destruct (foldM _ () _) as [[]|c msg]; [|done]. simpl.
  match goal with |- context [mbind _ ?r] => destruct r as [stack_dfs|c msg] end; [|done].
  simpl.
  pose proof (reduce_loop_ignores_indices self value_dim f view_dims view_method stack_dfs
                {| ls_indices := indices; ls_view_dimensions := view_dims; ls_stack := [] |}
                {| ls_indices := indices'; ls_view_dimensions := view_dims; ls_stack := [] |}
                eq_refl eq_refl) as Hloop.
  destruct (foldM _ {| ls_indices := indices |} stack_dfs) as [st|c msg];
    destruct (foldM _ {| ls_indices := indices' |} stack_dfs) as [st'|c' msg'];
    simpl in Hloop; try done.
  - injection Hloop as Hloop. simpl. by rewrite Hloop.
  - by injection Hloop as -> ->.
Qed.

End Reduce.

(** ** Selection by indices *)

Section Rows.
Import DFrameView.

Lemma filter_absent_label (rs : list (value * list value)) (ind : value) :
  ind ∉ rs.*1 → filter (λ r, r.1 = ind) rs = [].
Proof.
  induction rs as [|[i r] rs IH]; intros Hind; [done|].
  simpl in Hind. apply not_elem_of_cons in Hind as [Hne Hind].
  rewrite filter_cons_False by (simpl; congruence). by apply IH.
Qed.

Lemma filter_unique_label (rs : list (value * list value)) (ind : value)
    (row : list value) :
  NoDup rs.*1 → (ind, row) ∈ rs → filter (λ r, r.1 = ind) rs = [(ind, row)].
Proof.
  induction rs as [|[i r] rs IH]; intros Hnodup Hin.
  - by apply elem_of_nil in Hin.
  - simpl in Hnodup. apply NoDup_cons in Hnodup as [Hi Hnodup].
    apply elem_of_cons in Hin as [[= <- <-]|Hin].
    + rewrite filter_cons_True by done. f_equal. by apply filter_absent_label.
    + rewrite filter_cons_False; [by apply IH|].
      simpl. intros ->. apply Hi. apply list_elem_of_fmap. by exists (ind, row).
Qed.

(** Where one row carries the label, the lookup is the cell of that
    row. *)
Lemma loc_cell_unique (g : DataFrame) (ind : value) (row : list value) (d : string) :
  NoDup (index g) → (ind, row) ∈ rows g →
  loc_cell g ind d
  = (v ← from_option (row_cell (columns g) row d) KeyError
           "the column is not in the frame"; Ok (Scalar v)).
Proof.
  intros Hnodup Hin. unfold loc_cell.
  by rewrite (filter_unique_label _ _ _ Hnodup Hin).
Qed.

Lemma loc_cells_unique (g : DataFrame) (ind : value) (row : list value)
    (dims : list string) (xs : list value) :
  NoDup (index g) → (ind, row) ∈ rows g →
  mapM (row_cell (columns g) row) dims = Some xs →
  mapR (loc_cell g ind) dims = Ok (Scalar <$> xs).
Proof.
  intros Hnodup Hin. revert xs. induction dims as [|d dims IH]; intros xs Hxs.
  - by injection Hxs as <-.
  - simpl in Hxs. destruct (row_cell (columns g) row d) as [x|] eqn:Hd; [|done].
    simpl in Hxs. destruct (mapM (row_cell (columns g) row) dims) as [xs0|]; [|done].
    injection Hxs as <-. simpl.
    rewrite (loc_cell_unique g ind row d Hnodup Hin), Hd. simpl.
    by rewrite (IH xs0 eq_refl).
Qed.

Lemma scalars_hash (xs : list value) : mapM scalar_of (Scalar <$> xs) = Some xs.
Proof. apply mapM_Some_2. induction xs as [|x xs IH]; by constructor. Qed.

Lemma dict_set_new {V} (k : key) (x : V) (td : list (key * V)) :
  k ∉ td.*1 → dict_set k x td = td ++ [(k, x)].
Proof.
  induction td as [|[k' x'] td IH]; intros Hk; [done|].
  simpl in *. apply not_elem_of_cons in Hk as [Hne Hk].
  rewrite decide_False by done. by rewrite IH.
Qed.

Lemma key_head_row_key (ind : value) (xs : list value) :
  key_head (row_key ind xs) = Some ind.
Proof. by destruct xs. Qed.

(** One round for a row that is in the element, when there is not
    exactly one index: the entry goes under the key of the row. *)
Lemma select_row_unique (g : DataFrame) (value_dim : string) (view_dims : list string)
    (indices : list value) (td : list (key * cell)) (ind : value) (row xs : list value)
    (x : value) :
  length indices ≠ 1%nat →
  NoDup (index g) →
  (ind, row) ∈ rows g →
  mapM (row_cell (columns g) row) view_dims = Some xs →
  row_cell (columns g) row value_dim = Some x →
  select_row value_dim indices view_dims g td ind
  = Ok (dict_set (row_key ind xs) (Scalar x) td).
Proof.
  intros Hlen Hnodup Hin Hxs Hx. unfold select_row.
  rewrite (loc_cells_unique g ind row view_dims xs Hnodup Hin Hxs), result_bind_ok.
  cbv zeta. rewrite !(decide_False (P := length indices = 1%nat)) by done.
  rewrite (loc_cell_unique g ind row value_dim Hnodup Hin), Hx.
  destruct xs as [|x0 xs].
  - reflexivity.
  - rewrite decide_True by (simpl; lia). rewrite result_bind_ok.
    cbn [from_option]. rewrite !result_bind_ok.
    unfold hash_key.
    change (Scalar ind :: (Scalar <$> x0 :: xs)) with (Scalar <$> ind :: x0 :: xs).
    by rewrite scalars_hash.
Qed.

(** The loop over the indices, when there is not exactly one of them:
    every index whose row is in the element adds one entry, after the
    entries that are there. *)
Lemma select_loop (g : DataFrame) (value_dim : string) (view_dims : list string)
    (indices : list value) :
  length indices ≠ 1%nat →
  NoDup (index g) →
  ∀ (inds : list value) (td : list (key * cell)),
    NoDup inds →
    (∀ ind, ind ∈ inds →
       ∃ row xs x, (ind, row) ∈ rows g ∧
                   mapM (row_cell (columns g) row) view_dims = Some xs ∧
                   row_cell (columns g) row value_dim = Some x) →
    (∀ kv ind, kv ∈ td → ind ∈ inds → key_head kv.1 ≠ Some ind) →
    ∃ entries,
      foldM (select_row value_dim indices view_dims g) td inds = Ok (td ++ entries) ∧
      Forall2 (row_entry g value_dim view_dims) inds entries.
Proof.
  intros Hlen Hnodup. induction inds as [|ind inds IH]; intros td Hinds Hrows Hfresh.
  - exists []. split; [by rewrite app_nil_r | constructor].
  - apply NoDup_cons in Hinds as [Hind Hinds].
    destruct (Hrows ind) as (row & xs & x & Hin & Hxs & Hx); [by left|].
    set (k := row_key ind xs).
    assert (Hk : k ∉ td.*1).
    { intros Hk. apply list_elem_of_fmap in Hk as ([k' y] & Heq & Hkv). simpl in Heq.
      subst k'. apply (Hfresh (k, y) ind Hkv); [by left|]. apply key_head_row_key. }
    destruct (IH (td ++ [(k, Scalar x)]) Hinds) as (entries & Hloop & Hentries).
    { intros ind' Hind'. apply Hrows. by right. }
    { intros kv ind' Hkv Hind'. apply elem_of_app in Hkv as [Hkv|Hkv].
      - apply (Hfresh kv ind' Hkv). by right.
      - apply list_elem_of_singleton in Hkv as ->. simpl. unfold k.
        rewrite key_head_row_key. intros [= ->]. done. }
    exists ((k, Scalar x) :: entries). split.
    + change (foldM (select_row value_dim indices view_dims g) td (ind :: inds))
        with (select_row value_dim indices view_dims g td ind
                ≫= λ td', foldM (select_row value_dim indices view_dims g) td' inds).
      rewrite (select_row_unique g value_dim view_dims indices td ind row xs x
                 Hlen Hnodup Hin Hxs Hx), result_bind_ok.
      fold k. rewrite (dict_set_new _ _ _ Hk), Hloop.
      by rewrite <- app_assoc.
    + constructor; [|done]. by exists row, xs, x.
Qed.

Lemma entries_keys_distinct (g : DataFrame) (value_dim : string)
    (view_dims : list string) (inds : list value) (entries : list (key * cell)) :
  Forall2 (row_entry g value_dim view_dims) inds entries →
  key_head <$> entries.*1 = Some <$> inds.
Proof.
  induction 1 as [|ind kv inds entries (row & xs & x & _ & _ & _ & ->) _ IH]; [done|].
  rewrite !fmap_cons. cbn [fst]. rewrite key_head_row_key. f_equal. exact IH.
Qed.

(** In the example the four rows have the same [x], and each gets its
    entry in the table of [v] by [x]. *)
Example table_keeps_every_row :
  ∃ view,
    table 2%positive "v" [] None ["x"] [] example_heap = Ok (EView view, example_heap) ∧
    view_dict view = [(KTuple [VInt 0; VInt 7], Scalar (VInt 10));
                      (KTuple [VInt 1; VInt 7], Scalar (VInt 20));
                      (KTuple [VInt 2; VInt 7], Scalar (VInt 30));
                      (KTuple [VInt 3; VInt 7], Scalar (VInt 40))].
Proof. eexists. split; [vm_compute; reflexivity | reflexivity]. Qed.
End Rows.

(** ** The export, from the wrapper *)

Section ExportMore.
Import DFrameView.

(** *** The check of the dimensions *)

Lemma check_dimensions_ok (labels dims : list string) :
  (∀ d, d ∈ dims → d ∈ labels) →
  foldM (λ (_ : ()) dim,
      if decide (dim ∈ labels) then Ok ()
      else Raise Exception ("DFrameView has no Dimension " +:+ dim +:+ "."))
    () dims = Ok ().
Proof.
  induction dims as [|d dims IH]; intros Hall; [done|].
  simpl. rewrite decide_True by (apply Hall; by left). simpl.
  apply IH. intros d' Hd'. apply Hall. by right.
Qed.

Lemma check_dimensions_raises (labels before after : list string) (d : string) :
  (∀ d', d' ∈ before → d' ∈ labels) →
  d ∉ labels →
  foldM (λ (_ : ()) dim,
      if decide (dim ∈ labels) then Ok ()
      else Raise Exception ("DFrameView has no Dimension " +:+ dim +:+ "."))
    () (before ++ d :: after)
  = Raise Exception ("DFrameView has no Dimension " +:+ d +:+ ".").
Proof.
  induction before as [|d0 before IH]; intros Hall Hd.
  - simpl. by rewrite decide_False by done.
  - simpl. rewrite decide_True by (apply Hall; by left). simpl.
    apply IH; [|done]. intros d' Hd'. apply Hall. by right.
Qed.

(** X6: an export that names a dimension the wrapper does not have raises
    an exception that names the first such dimension, in the order value
    dimension, view dimensions, stack dimensions, whatever the frame
    holds. *)
Theorem export_unknown_dimension_raises (h : gmap ref pyobj) (self : ref) (v : View)
    (frame : DataFrame) (value_dim : string) (indices : list value)
    (reduce_fn : option (list value → result value)) (view_dims stack_dims : list string)
    (view_method : View → list (key * cell) → string → list string → result ViewData)
    (stack_type : stack_type) (before after : list string) (d : string) :
  h !! self = Some (ODFrameView v) →
  h !! data v = Some (ODataFrame frame) →
  value_dim :: view_dims ++ stack_dims = before ++ d :: after →
  (∀ d', d' ∈ before → d' ∈ dimension_labels v) →
  d ∉ dimension_labels v →
  _export_dataview self value_dim indices reduce_fn view_dims stack_dims view_method
    stack_type h
  = Raise Exception ("DFrameView has no Dimension " +:+ d +:+ ".").
Proof.
  intros Hself Hdata Hdims Hbefore Hd. unfold _export_dataview.
  rewrite (M_bind_ok _ _ h h v (get_view_ok _ _ _ Hself)).
  rewrite (M_bind_ok _ _ h h frame (get_frame_ok _ _ _ Hdata)).
  unfold lift, export_frame. rewrite Hdims.
  by rewrite (check_dimensions_raises _ before after d Hbefore Hd).
Qed.

Lemma export_unknown_dimension_raises_witness :
  table 2%positive "v" [] None ["x"; "y"] ["s"] example_heap
  = Raise Exception "DFrameView has no Dimension y.".
Proof.
  apply (export_unknown_dimension_raises example_heap 2%positive example_view example_frame
           "v" [] None ["x"; "y"] ["s"] _create_table TableStack ["v"; "x"] ["s"] "y").
  - reflexivity.
  - reflexivity.
  - reflexivity.
  - intros d Hd. repeat (apply elem_of_cons in Hd as [->|Hd]);
      [| |by apply elem_of_nil in Hd]; decide_by_computing.
  - decide_by_computing.
Defined.

(** *** The export of one view *)

(** Without stack dimensions the export is one round of the loop, on the
    working frame, under the null key. *)
Lemma export_unstacked (h : gmap ref pyobj) (self : ref) (v : View) (frame : DataFrame)
    (value_dim : string) (indices : list value)
    (reduce_fn : option (list value → result value)) (view_dims : list string)
    (view_method : View → list (key * cell) → string → list string → result ViewData)
    (stack_type : stack_type) :
  h !! self = Some (ODFrameView v) →
  h !! data v = Some (ODataFrame frame) →
  (∀ d, d ∈ value_dim :: view_dims → d ∈ dimension_labels v) →
  _export_dataview self value_dim indices reduce_fn view_dims [] view_method stack_type h
  = match export_group v value_dim reduce_fn view_dims view_method
            {| ls_indices := indices; ls_view_dimensions := view_dims; ls_stack := [] |}
            (None, working_frame v frame (value_dim :: view_dims)) with
    | Ok st => match dict_get None (ls_stack st) with
               | Some view => Ok (EView view, h)
               | None => Raise KeyError "None"
               end
    | Raise c msg => Raise c msg
    end.
Proof.
  intros Hself Hdata Hdims. unfold _export_dataview.
  rewrite (M_bind_ok _ _ h h v (get_view_ok _ _ _ Hself)).
  rewrite (M_bind_ok _ _ h h frame (get_frame_ok _ _ _ Hdata)).
  unfold lift, export_frame. rewrite app_nil_r.
  rewrite (check_dimensions_ok _ _ Hdims), result_bind_ok.
  fold (working_frame v frame (value_dim :: view_dims)).
  rewrite result_bind_ok.
  change (foldM ?f ?st [?g]) with (f st g ≫= λ st', Ok st').
  destruct (export_group _ _ _ _ _ _ _) as [st|c msg]; [|done].
  simpl. by destruct (dict_get None (ls_stack st)).
Qed.

(** X7: an export without reduction, with exactly one index and no view
    dimension, raises [IndexError], whatever the frame holds: the key of
    the row is the empty tuple, and its first component is asked for. *)
Theorem single_index_without_view_dims_raises (h : gmap ref pyobj) (self : ref)
    (v : View) (frame : DataFrame) (value_dim : string) (i : value)
    (view_method : View → list (key * cell) → string → list string → result ViewData)
    (stack_type : stack_type) :
  h !! self = Some (ODFrameView v) →
  h !! data v = Some (ODataFrame frame) →
  value_dim ∈ dimension_labels v →
  _export_dataview self value_dim [i] None [] [] view_method stack_type h
  = Raise IndexError "tuple index out of range".
Proof.
  intros Hself Hdata Hdim.
  rewrite (export_unstacked h self v frame) by
    (done || (intros d Hd; by apply list_elem_of_singleton in Hd as ->)).
  reflexivity.
Qed.

Lemma single_index_without_view_dims_raises_witness :
  heatmap 2%positive "v" [] (Some (VInt 1)) None [] example_heap
  = Raise IndexError "tuple index out of range".
Proof.
  apply (single_index_without_view_dims_raises example_heap 2%positive example_view
           example_frame "v" (VInt 1) _create_heatmap DataStack).
  - reflexivity.
  - reflexivity.
  - decide_by_computing.
Defined.

(** *** The working frame *)

Lemma list_index_elem (x : string) (l : list string) :
  x ∈ l → ∃ i, list_index x l = Some i ∧ (i < length l)%nat.
Proof.
  induction l as [|y l IH]; intros Hx; [by apply elem_of_nil in Hx|].
  simpl. destruct (decide (y = x)) as [->|Hne].
  - exists 0%nat. split; [done|lia].
  - apply elem_of_cons in Hx as [->|Hx]; [done|].
    destruct (IH Hx) as (i & Hi & Hlt). exists (S i). rewrite Hi. split; [done|lia].
Qed.

(** In a rectangular frame every row has a cell in every column. *)
Lemma rectangular_cell (df : DataFrame) (r : value * list value) (d : string) :
  rectangular df → r ∈ rows df → d ∈ columns df →
  is_Some (row_cell (columns df) r.2 d).
Proof.
  intros Hrect Hr Hd. destruct (list_index_elem d (columns df) Hd) as (i & Hi & Hlt).
  unfold row_cell. rewrite Hi. simpl. apply lookup_lt_is_Some.
  by rewrite (Hrect r Hr).
Qed.

Lemma rectangular_cells (df : DataFrame) (r : value * list value) (dims : list string) :
  rectangular df → r ∈ rows df → (∀ d, d ∈ dims → d ∈ columns df) →
  is_Some (mapM (row_cell (columns df) r.2) dims).
Proof.
  intros Hrect Hr Hdims. apply mapM_is_Some, Forall_forall. intros d Hd.
  apply rectangular_cell; auto.
Qed.

Lemma row_cell_cons_ne (c d : string) (kept : list string) (y : value) (ys : list value) :
  c ≠ d → row_cell (c :: kept) (y :: ys) d = row_cell kept ys d.
Proof.
  intros Hne. unfold row_cell. simpl. rewrite decide_False by done.
  by destruct (list_index d kept).
Qed.

(** The cells of a row restricted to the columns [kept] are the cells of
    the row. *)
Lemma row_cell_omap (f : string → option value) (kept : list string) (d : string) :
  (∀ c, c ∈ kept → is_Some (f c)) →
  d ∈ kept →
  row_cell kept (omap f kept) d = f d.
Proof.
  induction kept as [|c kept IH]; intros Hall Hd; [by apply elem_of_nil in Hd|].
  destruct (Hall c) as [y Hy]; [by left|].
  change (omap f (c :: kept)) with (match f c with
                                    | Some y => y :: omap f kept
                                    | None => omap f kept
                                    end).
  rewrite Hy. destruct (decide (c = d)) as [->|Hne].
  - unfold row_cell. simpl. by rewrite decide_True by done.
  - rewrite row_cell_cons_ne by done. apply IH.
    + intros c' Hc'. apply Hall. by right.
    + by apply elem_of_cons in Hd as [->|Hd].
Qed.

(** The working frame has the rows of the frame, with their row
    identifiers, and in the selected columns their cells. *)
Lemma working_frame_rows (v : View) (frame : DataFrame) (selected : list string) :
  rectangular frame →
  ∃ T : list value → list value,
    rows (working_frame v frame selected) = (λ r, (r.1, T r.2)) <$> rows frame ∧
    ∀ r d, r ∈ rows frame → d ∈ selected → d ∈ columns frame →
           row_cell (columns (working_frame v frame selected)) (T r.2) d
           = row_cell (columns frame) r.2 d.
Proof.
  intros Hrect. unfold working_frame.
  destruct (filter _ (dimension_labels v)) as [|d0 ds].
  - exists id. split; [|done].
    rewrite <- (list_fmap_id (rows frame)) at 1. apply list_fmap_ext.
    by intros ? [? ?].
  - exists (λ row, omap (row_cell (columns frame) row)
                     (filter (λ c, c ∈ columns frame) selected)).
    split; [done|]. intros r d Hr Hd Hcol. simpl.
    apply (row_cell_omap (row_cell (columns frame) r.2)).
    + intros c Hc. apply list_elem_of_filter in Hc as [Hc _].
      by apply rectangular_cell.
    + by apply list_elem_of_filter.
Qed.

Lemma working_frame_index (v : View) (frame : DataFrame) (selected : list string) :
  rectangular frame → index (working_frame v frame selected) = index frame.
Proof.
  intros Hrect. destruct (working_frame_rows v frame selected Hrect) as (T & Hrows & _).
  unfold index. rewrite Hrows, <- list_fmap_compose. by apply list_fmap_ext.
Qed.

(** What the rows of the working frame have in the selected dimensions,
    read from the frame. *)
Lemma working_frame_cells (v : View) (frame : DataFrame) (selected : list string)
    (value_dim : string) (view_dims : list string) :
  rectangular frame →
  value_dim ∈ selected → (∀ d, d ∈ view_dims → d ∈ selected) →
  value_dim ∈ columns frame → (∀ d, d ∈ view_dims → d ∈ columns frame) →
  (∀ ind row, (ind, row) ∈ rows frame →
     ∃ row', (ind, row') ∈ rows (working_frame v frame selected) ∧
             mapM (row_cell (columns (working_frame v frame selected)) row') view_dims
             = mapM (row_cell (columns frame) row) view_dims ∧
             row_cell (columns (working_frame v frame selected)) row' value_dim
             = row_cell (columns frame) row value_dim) ∧
  (∀ ind row', (ind, row') ∈ rows (working_frame v frame selected) →
     ∃ row, (ind, row) ∈ rows frame ∧
            mapM (row_cell (columns (working_frame v frame selected)) row') view_dims
            = mapM (row_cell (columns frame) row) view_dims ∧
            row_cell (columns (working_frame v frame selected)) row' value_dim
            = row_cell (columns frame) row value_dim).
Proof.
  intros Hrect Hvs Hds Hvc Hdc.
  destruct (working_frame_rows v frame selected Hrect) as (T & Hrows & Hcells).
  assert (Hboth : ∀ ind row, (ind, row) ∈ rows frame →
            mapM (row_cell (columns (working_frame v frame selected)) (T row)) view_dims
            = mapM (row_cell (columns frame) row) view_dims ∧
            row_cell (columns (working_frame v frame selected)) (T row) value_dim
            = row_cell (columns frame) row value_dim).
  { intros ind row Hin. split.
    - apply Forall_mapM_ext, Forall_forall. intros d Hd.
      apply (Hcells (ind, row) d Hin); auto.
    - apply (Hcells (ind, row) value_dim Hin); auto. }
  split.
  - intros ind row Hin. exists (T row). split; [|by apply (Hboth ind)].
    rewrite Hrows. apply list_elem_of_fmap. by exists (ind, row).
  - intros ind row' Hin. rewrite Hrows in Hin.
    apply list_elem_of_fmap in Hin as ([i row] & [= -> ->] & Hin).
    exists row. split; [done|]. by apply (Hboth i).
Qed.

(** *** Selected rows, from the wrapper *)

Lemma dim_dict_get_id (v : View) (dims : list string) : dim_dict_get v <$> dims = dims.
Proof. rewrite <- (list_fmap_id dims) at 2. by apply list_fmap_ext. Qed.

(** X8: the table of a wrapper without reduction and without stack
    dimensions, over a rectangular frame with distinct row identifiers,
    for two or more selected rows (all the rows when no indices are
    given): it is returned, its dimensions are [Index] and the view
    dimensions, and its mapping has, in the order of the selected rows,
    one entry per row, under the row identifier and the values of the row
    in the view dimensions, with the value of the row in the value
    dimension; the keys are distinct. *)
Theorem table_of_selected_rows (h : gmap ref pyobj) (self : ref) (v : View)
    (frame : DataFrame) (value_dim : string) (indices : list value)
    (view_dims : list string) (selected : list value) :
  h !! self = Some (ODFrameView v) →
  h !! data v = Some (ODataFrame frame) →
  (∀ d, d ∈ value_dim :: view_dims → d ∈ dimension_labels v) →
  (∀ d, d ∈ value_dim :: view_dims → d ∈ columns frame) →
  rectangular frame →
  NoDup (index frame) →
  selected = match indices with [] => index frame | _ => indices end →
  (2 ≤ length selected)%nat →
  NoDup selected →
  (∀ ind, ind ∈ selected → ind ∈ index frame) →
  ∃ temp_dict,
    table self value_dim indices None view_dims [] h
    = Ok (EView {| view_type_of := Table; view_dict := temp_dict;
                   view_label := label v; view_value := Some value_dim;
                   view_dimensions := Some ("Index" :: view_dims) |}, h) ∧
    Forall2 (row_entry frame value_dim view_dims) selected temp_dict ∧
    NoDup temp_dict.*1.
Proof.
  intros Hself Hdata Hlabels Hcols Hrect Hnodup Hsel Hlen Hdistinct Hin.
  set (wf := working_frame v frame (value_dim :: view_dims)).
  assert (Hvc : value_dim ∈ columns frame) by (apply Hcols; by left).
  assert (Hdc : ∀ d, d ∈ view_dims → d ∈ columns frame).
  { intros d Hd. apply Hcols. by right. }
  destruct (working_frame_cells v frame (value_dim :: view_dims) value_dim view_dims
              Hrect) as [Hto Hfrom]; [by left|by right|done|done|].
  fold wf in Hto, Hfrom.
  assert (Hindex : index wf = index frame) by by apply working_frame_index.
  assert (Hlen1 : length selected ≠ 1%nat) by lia.
  destruct (select_loop wf value_dim view_dims selected Hlen1) with (inds := selected)
    (td := @nil (key * cell)) as (entries & Hloop & Hentries).
  { by rewrite Hindex. }
  { done. }
  { intros ind Hind. apply Hin in Hind.
    apply list_elem_of_fmap in Hind as ([i row] & -> & Hrow). simpl.
    destruct (Hto i row Hrow) as (row' & Hrow' & Hxs & Hx).
    destruct (rectangular_cells frame (i, row) view_dims Hrect Hrow Hdc) as [xs Hxs'].
    destruct (rectangular_cell frame (i, row) value_dim Hrect Hrow Hvc) as [x Hx'].
    exists row', xs, x. split; [done|]. by rewrite Hxs, Hx. }
  { intros kv ind Hkv. by apply elem_of_nil in Hkv. }
  exists entries. split; [|split].
  - unfold table. rewrite (export_unstacked h self v frame) by done.
    fold wf. unfold export_group. cbn [ls_indices ls_view_dimensions ls_stack].
    assert (Hne : length indices ≠ 1%nat).
    { intros Hone. destruct indices as [|i [|j l]]; try done. subst selected.
      simpl in Hlen. lia. }
    rewrite !decide_False by done.
    replace (match indices with [] => index wf | _ :: _ => indices end) with selected
      by (rewrite Hindex; exact Hsel).
    unfold select_group. rewrite Hloop, result_bind_ok.
    unfold _create_table. by rewrite dim_dict_get_id.
  - eapply Forall2_impl; [exact Hentries|].
    intros ind kv (row' & xs & x & Hrow' & Hxs & Hx & ->).
    destruct (Hfrom ind row' Hrow') as (row & Hrow & Hxs' & Hx').
    exists row, xs, x. split; [done|]. by rewrite <- Hxs', <- Hx'.
  - assert (Hnd : NoDup (key_head <$> entries.*1)).
    { rewrite (entries_keys_distinct _ _ _ _ _ Hentries). by apply (NoDup_fmap_2 Some). }
    by apply NoDup_fmap_1 in Hnd.
Qed.

Lemma table_of_selected_rows_witness :
  ∃ temp_dict,
    table 2%positive "v" [VInt 1; VInt 3] None ["x"] [] example_heap
    = Ok (EView {| view_type_of := Table; view_dict := temp_dict;
                   view_label := "L"; view_value := Some "v";
                   view_dimensions := Some ["Index"; "x"] |}, example_heap) ∧
    Forall2 (row_entry example_frame "v" ["x"]) [VInt 1; VInt 3] temp_dict ∧
    NoDup temp_dict.*1.
Proof.
  apply (table_of_selected_rows example_heap 2%positive example_view example_frame "v"
           [VInt 1; VInt 3] ["x"] [VInt 1; VInt 3]).
  - reflexivity.
  - reflexivity.
  - intros d Hd. repeat (apply elem_of_cons in Hd as [->|Hd]);
      [| |by apply elem_of_nil in Hd]; decide_by_computing.
  - intros d Hd. repeat (apply elem_of_cons in Hd as [->|Hd]);
      [| |by apply elem_of_nil in Hd]; decide_by_computing.
  - intros r Hr. repeat (apply elem_of_cons in Hr as [->|Hr]);
      [| | | |by apply elem_of_nil in Hr]; reflexivity.
  - decide_by_computing.
  - reflexivity.
  - simpl. lia.
  - decide_by_computing.
  - intros ind Hind. repeat (apply elem_of_cons in Hind as [->|Hind]);
      [| |by apply elem_of_nil in Hind]; decide_by_computing.
Defined.

(** One round of the loop for the only index: the entry goes under the
    values of the row in the view dimensions. *)
Lemma select_row_single (g : DataFrame) (value_dim : string) (view_dims : list string)
    (td : list (key * cell)) (i : value) (row xs : list value) (x : value) (k : key) :
  NoDup (index g) →
  (i, row) ∈ rows g →
  mapM (row_cell (columns g) row) view_dims = Some xs →
  row_cell (columns g) row value_dim = Some x →
  plain_key xs = Some k →
  select_row value_dim [i] view_dims g td i = Ok (dict_set k (Scalar x) td).
Proof.
  intros Hnodup Hin Hxs Hx Hk. unfold select_row.
  rewrite (loc_cells_unique g i row view_dims xs Hnodup Hin Hxs), result_bind_ok.
  cbv zeta. rewrite !(decide_True (P := length [i] = 1%nat)) by done.
  rewrite (loc_cell_unique g i row value_dim Hnodup Hin), Hx.
  destruct xs as [|x0 [|x1 xs]]; [done| |].
  - injection Hk as <-. reflexivity.
  - injection Hk as <-.
    rewrite decide_True by (simpl; lia). rewrite result_bind_ok.
    cbn [from_option]. rewrite !result_bind_ok. unfold hash_key.
    by rewrite scalars_hash.
Qed.

(** X9: a heat map for a single index that is true in a condition, with
    view dimensions and without stack dimensions: when one row of the
    frame has the index for its row identifier, the heat map has the one
    entry of this row, under its values in the view dimensions, without
    the row identifier, and its dimensions are the view dimensions. *)
Theorem heatmap_of_single_index (h : gmap ref pyobj) (self : ref) (v : View)
    (frame : DataFrame) (value_dim : string) (dims : list string) (i : value)
    (row xs : list value) (x : value) (k : key) :
  h !! self = Some (ODFrameView v) →
  h !! data v = Some (ODataFrame frame) →
  (∀ d, d ∈ value_dim :: dims → d ∈ dimension_labels v) →
  (∀ d, d ∈ value_dim :: dims → d ∈ columns frame) →
  rectangular frame →
  NoDup (index frame) →
  truthy i = true →
  (i, row) ∈ rows frame →
  mapM (row_cell (columns frame) row) dims = Some xs →
  row_cell (columns frame) row value_dim = Some x →
  plain_key xs = Some k →
  heatmap self value_dim dims (Some i) None [] h
  = Ok (EView {| view_type_of := HeatMap; view_dict := [(k, Scalar x)];
                 view_label := label v; view_value := Some value_dim;
                 view_dimensions := Some dims |}, h).
Proof.
  intros Hself Hdata Hlabels Hcols Hrect Hnodup Htrue Hin Hxs Hx Hk.
  set (wf := working_frame v frame (value_dim :: dims)).
  destruct (working_frame_cells v frame (value_dim :: dims) value_dim dims Hrect)
    as [Hto _]; [by left|by right|apply Hcols; by left|intros d Hd; apply Hcols; by right|].
  fold wf in Hto. destruct (Hto i row Hin) as (row' & Hrow' & Hxs' & Hx').
  assert (Hindex : NoDup (index wf)) by (unfold wf; by rewrite working_frame_index).
  rewrite heatmap_is_export. unfold heatmap_indices. rewrite Htrue.
  rewrite (export_unstacked h self v frame) by done.
  fold wf. unfold export_group. cbn [ls_indices ls_view_dimensions ls_stack].
  rewrite !(decide_True (P := length [i] = 1%nat)) by done.
  unfold select_group.
  change (foldM ?f ?td [i]) with (f td i ≫= λ td', Ok td').
  rewrite (select_row_single wf value_dim dims [] i row' xs x k);
    [|done|done|by rewrite Hxs'|by rewrite Hx'|done].
  rewrite !result_bind_ok. unfold _create_heatmap, dim_dict_lookup.
  rewrite decide_True by (apply Hlabels; by left).
  rewrite result_bind_ok. by rewrite dim_dict_get_id.
Qed.

Lemma heatmap_of_single_index_witness :
  heatmap 2%positive "v" ["s"; "x"] (Some (VInt 2)) None [] example_heap
  = Ok (EView {| view_type_of := HeatMap;
                 view_dict := [(KTuple [VInt 2; VInt 7], Scalar (VInt 30))];
                 view_label := "L"; view_value := Some "v";
                 view_dimensions := Some ["s"; "x"] |}, example_heap).
Proof.
  apply (heatmap_of_single_index example_heap 2%positive example_view example_frame "v"
           ["s"; "x"] (VInt 2) [VInt 2; VInt 7; VInt 30] [VInt 2; VInt 7] (VInt 30)).
  - reflexivity.
  - reflexivity.
  - intros d Hd. repeat (apply elem_of_cons in Hd as [->|Hd]);
      [| | |by apply elem_of_nil in Hd]; decide_by_computing.
  - intros d Hd. repeat (apply elem_of_cons in Hd as [->|Hd]);
      [| | |by apply elem_of_nil in Hd]; decide_by_computing.
  - intros r Hr. repeat (apply elem_of_cons in Hr as [->|Hr]);
      [| | | |by apply elem_of_nil in Hr]; reflexivity.
  - decide_by_computing.
  - reflexivity.
  - decide_by_computing.
  - reflexivity.
  - reflexivity.
  - reflexivity.
Defined.

(** X10: the table of a frame that has a single row, without indices,
    reduction or stack dimensions: the loop takes the row identifier for
    the only index, so the dimensions of the table start with [Index]
    while the key of its one entry is made of the values in the view
    dimensions alone, without the row identifier. *)
Theorem table_of_one_row_frame (h : gmap ref pyobj) (self : ref) (v : View)
    (frame : DataFrame) (value_dim : string) (view_dims : list string) (i : value)
    (row xs : list value) (x : value) (k : key) :
  h !! self = Some (ODFrameView v) →
  h !! data v = Some (ODataFrame frame) →
  (∀ d, d ∈ value_dim :: view_dims → d ∈ dimension_labels v) →
  (∀ d, d ∈ value_dim :: view_dims → d ∈ columns frame) →
  rectangular frame →
  rows frame = [(i, row)] →
  mapM (row_cell (columns frame) row) view_dims = Some xs →
  row_cell (columns frame) row value_dim = Some x →
  plain_key xs = Some k →
  table self value_dim [] None view_dims [] h
  = Ok (EView {| view_type_of := Table; view_dict := [(k, Scalar x)];
                 view_label := label v; view_value := Some value_dim;
                 view_dimensions := Some ("Index" :: view_dims) |}, h).
Proof.
  intros Hself Hdata Hlabels Hcols Hrect Hrows Hxs Hx Hk.
  set (wf := working_frame v frame (value_dim :: view_dims)).
  assert (Hin : (i, row) ∈ rows frame) by (rewrite Hrows; by left).
  destruct (working_frame_cells v frame (value_dim :: view_dims) value_dim view_dims
              Hrect) as [Hto _];
    [by left|by right|apply Hcols; by left|intros d Hd; apply Hcols; by right|].
  fold wf in Hto. destruct (Hto i row Hin) as (row' & Hrow' & Hxs' & Hx').
  assert (Hindex : index wf = [i]).
  { unfold wf. rewrite working_frame_index by done. unfold index. by rewrite Hrows. }
  unfold table. rewrite (export_unstacked h self v frame) by done.
  fold wf. unfold export_group. cbn [ls_indices ls_view_dimensions ls_stack].
  rewrite !(decide_False (P := length (@nil value) = 1%nat)) by done.
  rewrite Hindex. unfold select_group.
  change (foldM ?f ?td [i]) with (f td i ≫= λ td', Ok td').
  rewrite (select_row_single wf value_dim view_dims [] i row' xs x k);
    [|rewrite Hindex; apply NoDup_singleton|done|by rewrite Hxs'|by rewrite Hx'|done].
  rewrite !result_bind_ok. unfold _create_table. by rewrite dim_dict_get_id.
Qed.

Lemma table_of_one_row_frame_witness :
  table 2%positive "v" [] None ["x"] []
    (<[1%positive := ODataFrame {| columns := ["s"; "x"; "v"];
                                   rows := [(VInt 5, [VInt 1; VInt 7; VInt 10])] |}]>
       example_heap)
  = Ok (EView {| view_type_of := Table;
                 view_dict := [(KBare (VInt 7), Scalar (VInt 10))];
                 view_label := "L"; view_value := Some "v";
                 view_dimensions := Some ["Index"; "x"] |},
        <[1%positive := ODataFrame {| columns := ["s"; "x"; "v"];
                                      rows := [(VInt 5, [VInt 1; VInt 7; VInt 10])] |}]>
          example_heap).
Proof.
  apply (table_of_one_row_frame _ 2%positive example_view
           {| columns := ["s"; "x"; "v"]; rows := [(VInt 5, [VInt 1; VInt 7; VInt 10])] |}
           "v" ["x"] (VInt 5) [VInt 1; VInt 7; VInt 10] [VInt 7] (VInt 10)).
  - reflexivity.
  - reflexivity.
  - intros d Hd. repeat (apply elem_of_cons in Hd as [->|Hd]);
      [| |by apply elem_of_nil in Hd]; decide_by_computing.
  - intros d Hd. repeat (apply elem_of_cons in Hd as [->|Hd]);
      [| |by apply elem_of_nil in Hd]; decide_by_computing.
  - intros r Hr. apply list_elem_of_singleton in Hr as ->. reflexivity.
  - reflexivity.
  - reflexivity.
  - reflexivity.
  - reflexivity.
Defined.

Lemma working_frame_labels (v : View) (frame : DataFrame) (selected : list string) :
  index (working_frame v frame selected) = index frame.
Proof.
  unfold working_frame. destruct (filter _ (dimension_labels v)); [done|].
  unfold index, filter_items. cbn [rows]. rewrite <- list_fmap_compose.
  by apply list_fmap_ext.
Qed.

Lemma loc_cell_unknown_label (g : DataFrame) (i : value) (d : string) :
  i ∉ index g → loc_cell g i d = Raise KeyError "the label is not in the index".
Proof. intros Hi. unfold loc_cell. by rewrite (filter_absent_label (rows g) i Hi). Qed.

(** One round of the loop for an index that no row of the element
    carries: the first lookup, in the first view dimension, raises. *)
Lemma select_row_unknown_label (value_dim : string) (indices : list value) (d : string)
    (ds : list string) (g : DataFrame) (td : list (key * cell)) (i : value) :
  i ∉ index g →
  select_row value_dim indices (d :: ds) g td i
  = Raise KeyError "the label is not in the index".
Proof.
  intros Hi. unfold select_row.
  change (mapR (loc_cell g i) (d :: ds))
    with (y ← loc_cell g i d; ys ← mapR (loc_cell g i) ds; Ok (y :: ys)).
  by rewrite (loc_cell_unknown_label g i d Hi).
Qed.

(** X17: an export without reduction and without stack dimensions, with
    view dimensions, raises [KeyError] when the first of the given
    indices is not a row identifier of the frame. *)
Theorem export_unknown_index_raises (h : gmap ref pyobj) (self : ref) (v : View)
    (frame : DataFrame) (value_dim : string) (i : value) (rest : list value)
    (view_dims : list string)
    (view_method : View → list (key * cell) → string → list string → result ViewData)
    (stack_type : stack_type) :
  h !! self = Some (ODFrameView v) →
  h !! data v = Some (ODataFrame frame) →
  (∀ d, d ∈ value_dim :: view_dims → d ∈ dimension_labels v) →
  view_dims ≠ [] →
  i ∉ index frame →
  ∃ msg,
    _export_dataview self value_dim (i :: rest) None view_dims [] view_method stack_type h
    = Raise KeyError msg.
Proof.
  intros Hself Hdata Hlabels Hdims Hi.
  destruct view_dims as [|d0 ds]; [done|].
  set (wf := working_frame v frame (value_dim :: d0 :: ds)).
  exists "the label is not in the index".
  rewrite (export_unstacked h self v frame) by done.
  fold wf. unfold export_group. cbn [ls_indices ls_view_dimensions ls_stack].
  assert (Hindices : (if decide (length (i :: rest) = 1%nat) then i :: rest
                      else i :: rest) = i :: rest) by by destruct (decide _).
  rewrite Hindices. unfold select_group.
  change (foldM ?f ?td (i :: rest)) with (f td i ≫= λ td', foldM f td' rest).
  rewrite select_row_unknown_label; [done|].
  unfold wf. by rewrite working_frame_labels.
Qed.

Lemma export_unknown_index_raises_witness :
  ∃ msg,
    table 2%positive "v" [VInt 9; VInt 1] None ["x"] [] example_heap = Raise KeyError msg.
Proof.
  apply (export_unknown_index_raises example_heap 2%positive example_view example_frame
           "v" (VInt 9) [VInt 1] ["x"] _create_table TableStack).
  - reflexivity.
  - reflexivity.
  - intros d Hd. repeat (apply elem_of_cons in Hd as [->|Hd]);
      [| |by apply elem_of_nil in Hd]; decide_by_computing.
  - done.
  - decide_by_computing.
Defined.
End ExportMore.

(** ** Reduction by key *)

Section ReduceMore.
Import DFrameView.

Lemma dict_get_set {K V} `{EqDecision K} (k k' : K) (x : V) (d : list (K * V)) :
  dict_get k' (dict_set k x d) = if decide (k = k') then Some x else dict_get k' d.
Proof.
  induction d as [|[k0 x0] d IH]; simpl.
  - by destruct (decide (k = k')).
  - destruct (decide (k0 = k)) as [->|Hne]; simpl.
    + destruct (decide (k = k')); [done|done].
    + destruct (decide (k0 = k')) as [->|Hne'].
      * by rewrite decide_False by done.
      * exact IH.
Qed.

Lemma dict_set_keys {K V} `{EqDecision K} (k : K) (x : V) (d : list (K * V)) :
  (dict_set k x d).*1 = if decide (k ∈ d.*1) then d.*1 else d.*1 ++ [k].
Proof.
  induction d as [|[k0 x0] d IH].
  - destruct (decide (k ∈ (@nil (K * V)).*1)) as [Hin|_]; [|done].
    by apply elem_of_nil in Hin.
  - cbn [dict_set]. rewrite !fmap_cons. cbn [fst].
    destruct (decide (k0 = k)) as [->|Hne].
    + rewrite fmap_cons. cbn [fst].
      destruct (decide (k ∈ k :: d.*1)) as [_|Hnin]; [done|].
      destruct Hnin. by left.
    + rewrite fmap_cons, IH. cbn [fst].
      destruct (decide (k ∈ d.*1)) as [Hin|Hnin];
        destruct (decide (k ∈ k0 :: d.*1)) as [Hin'|Hnin']; try done.
      * destruct Hnin'. by right.
      * apply elem_of_cons in Hin' as [->|Hin']; done.
Qed.

Lemma dict_set_keys_distinct {K V} `{EqDecision K} (k : K) (x : V) (d : list (K * V)) :
  NoDup d.*1 → NoDup (dict_set k x d).*1.
Proof.
  intros Hd. rewrite dict_set_keys. destruct (decide (k ∈ d.*1)); [done|].
  apply NoDup_app. split; [done|]. split; [|apply NoDup_singleton].
  intros k' Hk' Hk. by apply list_elem_of_singleton in Hk as ->.
Qed.

Lemma dict_get_elem {K V} `{EqDecision K} (k : K) (x : V) (d : list (K * V)) :
  NoDup d.*1 → (k, x) ∈ d ↔ dict_get k d = Some x.
Proof.
  induction d as [|[k0 x0] d IH]; intros Hd; simpl.
  - split; [by intros ?%elem_of_nil|done].
  - apply NoDup_cons in Hd as [Hk0 Hd]. destruct (decide (k0 = k)) as [->|Hne].
    + split.
      * intros Hin. apply elem_of_cons in Hin as [[= ->]|Hin]; [done|].
        destruct Hk0. apply list_elem_of_fmap. by exists (k, x).
      * intros [= ->]. by left.
    + rewrite <- (IH Hd). split.
      * intros Hin. apply elem_of_cons in Hin as [[= -> ->]|Hin]; done.
      * intros Hin. by right.
Qed.

Lemma values_under_cons (k k0 : key) (x0 : value) (krs : list (key * value)) :
  values_under k ((k0, x0) :: krs)
  = if decide (k0 = k) then x0 :: values_under k krs else values_under k krs.
Proof.
  unfold values_under. destruct (decide (k0 = k)) as [->|Hne].
  - by rewrite filter_cons_True by done.
  - by rewrite filter_cons_False by done.
Qed.

(** The mapping the loop of the reduction builds from the keyed rows
    [krs], on top of [acc]: its keys stay distinct, and under a key are
    the values that were there, then those of the rows with the key. *)
Lemma collect_keyed (krs : list (key * value)) :
  ∀ acc : list (key * list value),
    NoDup acc.*1 →
    NoDup (foldl (λ d kv, dict_append kv.1 kv.2 d) acc krs).*1 ∧
    ∀ k, dict_get k (foldl (λ d kv, dict_append kv.1 kv.2 d) acc krs)
         = match dict_get k acc with
           | Some vs0 => Some (vs0 ++ values_under k krs)
           | None => match values_under k krs with
                     | [] => None
                     | vs => Some vs
                     end
           end.
Proof.
  induction krs as [|[k0 x0] krs IH]; intros acc Hacc.
  - split; [done|]. intros k. cbn [foldl].
    destruct (dict_get k acc) as [vs0|]; [|done].
    unfold values_under. by rewrite app_nil_r.
  - cbn [foldl fst snd]. destruct (IH (dict_append k0 x0 acc)) as [Hnodup Hget].
    { by apply dict_set_keys_distinct. }
    split; [done|]. intros k. rewrite Hget, values_under_cons.
    unfold dict_append. rewrite dict_get_set.
    destruct (decide (k0 = k)) as [->|Hne]; [|done].
    destruct (dict_get k acc) as [vs0|]; cbn [default].
    + by rewrite <- app_assoc.
    + done.
Qed.

Lemma values_under_elem (k : key) (krs : list (key * value)) :
  values_under k krs ≠ [] ↔ k ∈ krs.*1.
Proof.
  induction krs as [|[k0 x0] krs IH].
  - split; [done|]. by intros ?%elem_of_nil.
  - rewrite values_under_cons, fmap_cons. cbn [fst].
    destruct (decide (k0 = k)) as [->|Hne].
    + split; [intros _; by left|done].
    + rewrite IH. split; [by right|].
      intros Hin. by apply elem_of_cons in Hin as [->|Hin].
Qed.

(** The positions of the view dimensions among the columns. *)
Lemma view_dims_positions_exist (cols : list string) (dims : list string) :
  (∀ d, d ∈ dims → d ∈ cols) →
  ∃ inds,
    mapR (λ d, from_option (list_index d cols) ValueError "not in list") dims = Ok inds ∧
    ∀ row xs,
      mapM (row_cell cols row) dims = Some xs →
      mapR (λ ind, from_option (row !! ind) IndexError "index out of bounds") inds = Ok xs.
Proof.
  induction dims as [|d dims IH]; intros Hdims.
  - exists []. split; [done|]. by intros row xs [= <-].
  - destruct IH as (inds & Hinds & Hread).
    { intros d' Hd'. apply Hdims. by right. }
    destruct (list_index_elem d cols) as (i & Hi & _); [apply Hdims; by left|].
    exists (i :: inds). split.
    + simpl. rewrite Hi. simpl. by rewrite Hinds.
    + intros row xs Hxs. simpl in Hxs.
      destruct (row_cell cols row d) as [x|] eqn:Hx; [|done]. simpl in Hxs.
      destruct (mapM (row_cell cols row) dims) as [xs0|] eqn:Hrest; [|done].
      injection Hxs as <-. unfold row_cell in Hx. rewrite Hi in Hx. simpl in Hx.
      simpl. rewrite Hx. simpl. by rewrite (Hread row xs0 Hrest).
Qed.

Lemma collect_keyed_rows (key_of : list value → result key) (vi : nat)
    (rs : list (list value)) (krs : list (key * value)) :
  Forall2 (λ row kv, key_of row = Ok kv.1 ∧ row !! vi = Some kv.2) rs krs →
  ∀ acc,
    foldM (λ (temp_dict : list (key * list value)) (row : list value),
        key ← key_of row;
        x ← from_option (row !! vi) IndexError "index out of bounds";
        Ok (dict_append key x temp_dict)) acc rs
    = Ok (foldl (λ d kv, dict_append kv.1 kv.2 d) acc krs).
Proof.
  induction 1 as [|row kv rs krs [Hk Hx] _ IH]; intros acc; [done|].
  simpl. rewrite Hk, Hx. simpl. apply IH.
Qed.

(** X11: the reduction of a stack element groups its rows by their key:
    when the value dimension and the view dimensions are columns and the
    rows have their cells there, the reduction function is applied, key
    by key, to the values of exactly the rows that have the key, in the
    order of the rows; every key of a row gets its entry, the keys are
    distinct, and an element without rows gives the empty mapping. *)
Theorem reduce_groups_by_key (value_dim : string) (view_dims : list string)
    (g : DataFrame) (krs : list (key * value))
    (reduce_fn : list value → result value) :
  value_dim ∈ columns g →
  (∀ d, d ∈ view_dims → d ∈ columns g) →
  Forall2 (keyed_row (columns g) value_dim view_dims) (values g) krs →
  ∃ temp_dict : list (key * list value),
    reduce_group value_dim reduce_fn view_dims g
    = mapR (λ kv, r ← reduce_fn kv.2; Ok (kv.1, Scalar r)) temp_dict ∧
    NoDup temp_dict.*1 ∧
    (∀ k vs, (k, vs) ∈ temp_dict ↔ k ∈ krs.*1 ∧ vs = values_under k krs) ∧
    (values g = [] → reduce_group value_dim reduce_fn view_dims g = Ok []).
Proof.
  intros Hvalue Hdims Hrows.
  destruct (list_index_elem value_dim (columns g) Hvalue) as (vi & Hvi & _).
  destruct (view_dims_positions_exist (columns g) view_dims Hdims) as (inds & Hinds & Hread).
  set (temp_dict := foldl (λ d (kv : key * value), dict_append kv.1 kv.2 d) [] krs).
  destruct (collect_keyed krs []) as [Hnodup Hget]; [constructor|].
  fold temp_dict in Hnodup, Hget.
  assert (Hreduce : reduce_group value_dim reduce_fn view_dims g
                    = mapR (λ kv, r ← reduce_fn kv.2; Ok (kv.1, Scalar r)) temp_dict).
  { apply (reduce_group_steps value_dim reduce_fn view_dims g vi inds temp_dict Hvi Hinds).
    apply (collect_keyed_rows
             (λ row, match view_dims with
                     | [] => Ok (KBare (VStr value_dim))
                     | _ => KTuple <$> mapR (λ ind, from_option (row !! ind) IndexError
                                                       "index out of bounds") inds
                     end) vi (values g) krs).
    eapply Forall2_impl; [exact Hrows|].
    intros row kv (xs & Hxs & Hk & Hx). split.
    - rewrite Hk. unfold shared_key. destruct view_dims as [|d ds]; [done|].
      by rewrite (Hread row xs Hxs).
    - unfold row_cell in Hx. by rewrite Hvi in Hx. }
  exists temp_dict. split; [done|]. split; [done|]. split.
  - intros k vs. rewrite (dict_get_elem k vs temp_dict Hnodup), Hget.
    cbn [dict_get]. split.
    + intros Hvs. assert (Hne : values_under k krs ≠ []).
      { intros Hnil. by rewrite Hnil in Hvs. }
      split; [by apply values_under_elem|].
      destruct (values_under k krs); [done|]. by injection Hvs.
    + intros [Hk ->]. apply values_under_elem in Hk.
      by destruct (values_under k krs).
  - intros Hempty. rewrite Hreduce. rewrite Hempty in Hrows.
    apply Forall2_nil_inv_l in Hrows. subst krs. reflexivity.
Qed.

(** The example by [s]: the values 10 and 20 are reduced under [s = 1],
    the values 30 and 40 under [s = 2]. *)
Lemma reduce_groups_by_key_witness :
  ∃ temp_dict : list (key * list value),
    reduce_group "v" py_sum ["s"] example_frame
    = mapR (λ kv, r ← py_sum kv.2; Ok (kv.1, Scalar r)) temp_dict ∧
    NoDup temp_dict.*1 ∧
    (KTuple [VInt 1], [VInt 10; VInt 20]) ∈ temp_dict ∧
    (KTuple [VInt 2], [VInt 30; VInt 40]) ∈ temp_dict.
Proof.
  destruct (reduce_groups_by_key "v" ["s"] example_frame
              [(KTuple [VInt 1], VInt 10); (KTuple [VInt 1], VInt 20);
               (KTuple [VInt 2], VInt 30); (KTuple [VInt 2], VInt 40)] py_sum)
    as (temp_dict & Hreduce & Hnodup & Hgroups & _).
  - decide_by_computing.
  - intros d Hd. apply list_elem_of_singleton in Hd as ->. decide_by_computing.
  - repeat (constructor; [eexists; split; [reflexivity|split; reflexivity]|]).
    constructor.
  - exists temp_dict. split; [exact Hreduce|]. split; [exact Hnodup|].
    split; apply Hgroups; (split; [decide_by_computing|reflexivity]).
Defined.
End ReduceMore.
(** ** Rendering and redrawing *)

Section PlotMore.
Import DFramePlot.

(** Every plot type has its list of options. *)
Lemma plot_options_total (t : plot_type) :
  ∃ allowed, dict_get (plot_type_name t) plot_options = Some allowed.
Proof. destruct t; eexists; reflexivity. Qed.

Lemma reserved_names_not_allowed (t : plot_type) (allowed : list string) :
  dict_get (plot_type_name t) plot_options = Some allowed →
  ("figsize" ∉ allowed) ∧ ("return_type" ∉ allowed).
Proof.
  intros H. destruct t; injection H as <-; split; decide_by_computing.
Qed.

Lemma dict_get_key {K V} `{EqDecision K} (k : K) (d : list (K * V)) :
  k ∈ d.*1 ↔ is_Some (dict_get k d).
Proof.
  induction d as [|[k0 x0] d IH]; simpl.
  - split; [by intros ?%elem_of_nil|by intros [? ?]].
  - destruct (decide (k0 = k)) as [->|Hne].
    + split; [by eexists|by left].
    + rewrite <- IH. rewrite elem_of_cons. intuition congruence.
Qed.

(** Once the style set has changed size, asking for the next name
    raises. *)
Lemma style_loop_changed (t : plot_type) (names : list string) (r : rendering) :
  style_loop t names true r
  = (r, Raise RuntimeError "dictionary changed size during iteration").
Proof. by destruct names. Qed.

(** Over names that the plot type allows, the loop changes nothing. *)
Lemma style_loop_allowed (t : plot_type) (allowed names : list string) (r : rendering) :
  dict_get (plot_type_name t) plot_options = Some allowed →
  (∀ k, k ∈ names → k ∈ allowed) →
  style_loop t names false r = (r, Ok ()).
Proof.
  intros Hallowed. induction names as [|k names IH]; intros Hnames; [done|].
  cbn [style_loop]. rewrite Hallowed.
  rewrite decide_True by (apply Hnames; by left).
  apply IH. intros k' Hk'. apply Hnames. by right.
Qed.

(** At the first name the plot type does not allow, the loop warns,
    removes the option, and raises when it asks for the next name. *)
Lemma style_loop_unknown (t : plot_type) (allowed good rest : list string) (k : string)
    (r : rendering) :
  dict_get (plot_type_name t) plot_options = Some allowed →
  (∀ k', k' ∈ good → k' ∈ allowed) →
  k ∉ allowed →
  k ∈ (style r).*1 →
  style_loop t (good ++ k :: rest) false r
  = ({| warnings := warnings r ++ [warning_text k t]; style := dict_del k (style r) |},
     Raise RuntimeError "dictionary changed size during iteration").
Proof.
  intros Hallowed Hgood Hk Hin. induction good as [|k0 good IH].
  - cbn [app style_loop]. rewrite Hallowed. rewrite decide_False by done.
    apply dict_get_key in Hin as [x ->]. apply style_loop_changed.
  - cbn [app style_loop]. rewrite Hallowed.
    rewrite decide_True by (apply Hgood; by left).
    apply IH. intros k' Hk'. apply Hgood. by right.
Qed.

(** The names of a list up to the first that is not among [allowed]. *)
Lemma first_unknown (allowed names : list string) (k : string) :
  k ∈ names → k ∉ allowed →
  ∃ good k1 rest,
    names = good ++ k1 :: rest ∧ (∀ k', k' ∈ good → k' ∈ allowed) ∧ (k1 ∉ allowed).
Proof.
  induction names as [|k0 names IH]; intros Hin Hk; [by apply elem_of_nil in Hin|].
  destruct (decide (k0 ∈ allowed)) as [Hk0|Hk0].
  - apply elem_of_cons in Hin as [->|Hin]; [done|].
    destruct (IH Hin Hk) as (good & k1 & rest & -> & Hgood & Hk1).
    exists (k0 :: good), k1, rest. split; [done|]. split; [|done].
    intros k' Hk'. apply elem_of_cons in Hk' as [->|Hk']; [done|by apply Hgood].
  - exists [], k0, names. split; [done|]. split; [|done].
    intros k' Hk'. by apply elem_of_nil in Hk'.
Qed.

Lemma call_legal (self : Plot) (composed : bool) (ndims : nat)
    (style0 : list (string * style_value)) :
  legal_composition self composed ndims →
  __call__ self composed ndims style0
  = ((process_styles (plot_type_of self) style0).2 ≫= λ _,
     let r := (process_styles (plot_type_of self) style0).1 in
     let style := dict_set "figsize" (size self) (style r) in
     let style :=
       if decide (plot_type_of self = boxplot)
       then dict_set "return_type" (SScalar (VStr "axes")) style
       else style in
     Ok {| warnings := warnings r; style := style |}).
Proof.
  intros Hlegal. unfold __call__. destruct composed; [|done].
  destruct Hlegal as [|[Hscatter Hhist]]; [done|]. cbn [andb].
  rewrite bool_decide_eq_false_2 by done.
  destruct (1 <? ndims)%nat eqn:Hlt; [|done].
  apply Nat.ltb_lt in Hlt. destruct Hhist as [Hhist|]; [|lia].
  rewrite bool_decide_eq_false_2; [done|].
  intros Hin. by apply list_elem_of_singleton in Hin.
Qed.

(** C9: a style option whose name the plot type does not allow makes the
    render call fail. The loop runs over a view of the style set; at
    the first name that is not allowed it emits the warning and removes
    the option, and asking the view for the next name then raises
    [RuntimeError], also when no name is left. A render call that is
    legal as a composition raises that error, and no later option is
    looked at. *)
Theorem render_fails_on_unknown_style_option (self : Plot) (composed : bool)
    (ndims : nat) (style0 : list (string * style_value)) (k : string)
    (allowed : list string) :
  dict_get (plot_type_name (plot_type_of self)) plot_options = Some allowed →
  k ∈ style0.*1 →
  k ∉ allowed →
  (∃ good k1 rest,
     style0.*1 = good ++ k1 :: rest ∧
     (∀ k', k' ∈ good → k' ∈ allowed) ∧
     (k1 ∉ allowed) ∧
     process_styles (plot_type_of self) style0
     = ({| warnings := [warning_text k1 (plot_type_of self)];
           style := dict_del k1 style0 |},
        Raise RuntimeError "dictionary changed size during iteration")) ∧
  (legal_composition self composed ndims →
   __call__ self composed ndims style0
   = Raise RuntimeError "dictionary changed size during iteration").
Proof.
  intros Hallowed Hin Hk.
  destruct (first_unknown allowed style0.*1 k Hin Hk)
    as (good & k1 & rest & Hnames & Hgood & Hk1).
  assert (Hloop : process_styles (plot_type_of self) style0
                  = ({| warnings := [warning_text k1 (plot_type_of self)];
                        style := dict_del k1 style0 |},
                     Raise RuntimeError "dictionary changed size during iteration")).
  { unfold process_styles. rewrite Hnames.
    apply (style_loop_unknown _ allowed good rest k1
             {| warnings := []; style := style0 |} Hallowed Hgood Hk1).
    cbn [style]. rewrite Hnames. apply elem_of_app. right. by left. }
  split.
  - by exists good, k1, rest.
  - intros Hlegal. rewrite (call_legal _ _ _ _ Hlegal). by rewrite Hloop.
Qed.

(** A box plot given a grid option and a colour: the colour is warned
    about and removed, and the render call fails. *)
Lemma render_fails_on_unknown_style_option_witness :
  __call__ {| plot_type_of := boxplot; size := STuple [VInt 5; VInt 5] |} false 1
    [("grid", SScalar (VInt 1)); ("color", SScalar (VStr "r"))]
  = Raise RuntimeError "dictionary changed size during iteration".
Proof.
  refine (proj2 (render_fails_on_unknown_style_option
                   {| plot_type_of := boxplot; size := STuple [VInt 5; VInt 5] |} false 1
                   [("grid", SScalar (VInt 1)); ("color", SScalar (VStr "r"))]
                   "color" _ eq_refl _ _) _).
  - decide_by_computing.
  - decide_by_computing.
  - by left.
Defined.

(** A single option the plot type does not allow is enough, although no
    name is left to iterate over after it. *)
Example render_with_one_unknown_option :
  process_styles boxplot [("color", SScalar (VStr "r"))]
  = ({| warnings := ["Plot option color does not apply to boxplot plot type."];
        style := [] |},
     Raise RuntimeError "dictionary changed size during iteration").
Proof. vm_compute. reflexivity. Qed.

(** X12: what a render call raises. Composed on a given axis, a scatter
    matrix, or a histogram of a view with more than one dimension,
    raises [Exception]. A legal composition raises [RuntimeError] when
    the style set has an option whose name the plot type does not allow,
    and returns otherwise. *)
Theorem render_raises_on_illegal_composition_only (self : Plot) (composed : bool)
    (ndims : nat) (style0 : list (string * style_value)) (allowed : list string) :
  dict_get (plot_type_name (plot_type_of self)) plot_options = Some allowed →
  (composed = true → plot_type_of self = scatter_matrix →
   __call__ self composed ndims style0
   = Raise Exception "Scatter Matrix plots can't be composed.") ∧
  (composed = true → plot_type_of self = hist → (1 < ndims)%nat →
   __call__ self composed ndims style0
   = Raise Exception "Multiple hist plots cannot be composed.") ∧
  (legal_composition self composed ndims →
   (∃ k, k ∈ style0.*1 ∧ k ∉ allowed) →
   __call__ self composed ndims style0
   = Raise RuntimeError "dictionary changed size during iteration") ∧
  (legal_composition self composed ndims →
   (∀ k, k ∈ style0.*1 → k ∈ allowed) →
   ∃ r, __call__ self composed ndims style0 = Ok r).
Proof.
  intros Hallowed. split; [|split; [|split]].
  - intros -> Hs. unfold __call__. rewrite Hs. reflexivity.
  - intros -> Hh Hlt. unfold __call__. rewrite Hh. simpl.
    apply Nat.ltb_lt in Hlt. by rewrite Hlt.
  - intros Hlegal (k & Hin & Hk).
    destruct (first_unknown allowed style0.*1 k Hin Hk)
      as (good & k1 & rest & Hnames & Hgood & Hk1).
    rewrite (call_legal _ _ _ _ Hlegal). unfold process_styles. rewrite Hnames.
    rewrite (style_loop_unknown _ allowed good rest k1
               {| warnings := []; style := style0 |} Hallowed Hgood Hk1); [done|].
    cbn [style]. rewrite Hnames. apply elem_of_app. right. by left.
  - intros Hlegal Hnames. rewrite (call_legal _ _ _ _ Hlegal). unfold process_styles.
    rewrite (style_loop_allowed _ allowed _ _ Hallowed Hnames). by eexists.
Qed.

Lemma render_raises_on_illegal_composition_only_witness :
  __call__ {| plot_type_of := hist; size := STuple [VInt 5; VInt 5] |} true 2
    [("grid", SScalar (VInt 1))]
  = Raise Exception "Multiple hist plots cannot be composed.".
Proof.
  apply (proj1 (proj2 (render_raises_on_illegal_composition_only
                         {| plot_type_of := hist; size := STuple [VInt 5; VInt 5] |}
                         true 2 [("grid", SScalar (VInt 1))] _ eq_refl)));
    [reflexivity|reflexivity|lia].
Defined.

(** X13: the style set of a render call that returns. Every option it
    was given has a name the plot type allows, no warning was emitted,
    and the style set passed to the drawing routine is the one given,
    with the size of the plot under [figsize] and, for a box plot, the
    string [axes] under [return_type]. *)
Theorem rendered_style (self : Plot) (composed : bool) (ndims : nat)
    (style0 : list (string * style_value)) (r : rendering) :
  __call__ self composed ndims style0 = Ok r →
  ∃ allowed,
    dict_get (plot_type_name (plot_type_of self)) plot_options = Some allowed ∧
    (∀ k, k ∈ style0.*1 → k ∈ allowed) ∧
    warnings r = [] ∧
    style r
    = (if decide (plot_type_of self = boxplot)
       then dict_set "return_type" (SScalar (VStr "axes"))
              (dict_set "figsize" (size self) style0)
       else dict_set "figsize" (size self) style0) ∧
    dict_get "figsize" (style r) = Some (size self) ∧
    dict_get "return_type" (style r)
    = (if decide (plot_type_of self = boxplot) then Some (SScalar (VStr "axes")) else None) ∧
    ∀ k, k ≠ "figsize" → k ≠ "return_type" → dict_get k (style r) = dict_get k style0.
Proof.
  destruct (plot_options_total (plot_type_of self)) as [allowed Hallowed].
  destruct (reserved_names_not_allowed _ _ Hallowed) as [Hfig Hret].
  intros Hcall. exists allowed. split; [done|].
  assert (Hnames : ∀ k, k ∈ style0.*1 → k ∈ allowed).
  { intros k Hin. destruct (decide (k ∈ allowed)) as [|Hk]; [done|].
    assert (Hlegal : legal_composition self composed ndims).
    { unfold __call__ in Hcall. unfold legal_composition.
      destruct composed; [right|by left]. cbn [andb] in Hcall.
      destruct (decide (plot_type_of self = scatter_matrix)) as [Hs|Hs].
      { by rewrite bool_decide_eq_true_2 in Hcall by done. }
      split; [done|].
      destruct (decide (plot_type_of self = hist)) as [Hh|Hh]; [|by left].
      right. rewrite bool_decide_eq_false_2 in Hcall by done.
      destruct (1 <? ndims)%nat eqn:Hlt; [|by apply Nat.ltb_ge in Hlt].
      rewrite bool_decide_eq_true_2 in Hcall; [done|]. rewrite Hh. by left. }
    destruct (first_unknown allowed style0.*1 k Hin Hk)
      as (good & k1 & rest & Hsplit & Hgood & Hk1).
    rewrite (call_legal _ _ _ _ Hlegal) in Hcall. unfold process_styles in Hcall.
    rewrite Hsplit in Hcall.
    rewrite (style_loop_unknown _ allowed good rest k1
               {| warnings := []; style := style0 |} Hallowed Hgood Hk1) in Hcall;
      [done|].
    cbn [style]. rewrite Hsplit. apply elem_of_app. right. by left. }
  split; [done|].
  assert (Hret0 : dict_get "return_type" style0 = None).
  { destruct (dict_get "return_type" style0) as [x|] eqn:Hx; [|done].
    destruct Hret. apply Hnames. apply dict_get_key. by exists x. }
  unfold __call__, process_styles in Hcall.
  rewrite (style_loop_allowed _ allowed _ _ Hallowed Hnames) in Hcall.
  destruct (composed && bool_decide (plot_type_of self = scatter_matrix)); [done|].
  destruct (composed && (1 <? ndims)%nat && bool_decide (plot_type_of self ∈ [hist]));
    [done|].
  cbn [fst snd] in Hcall. rewrite result_bind_ok in Hcall. injection Hcall as <-.
  cbn [warnings style]. split; [done|]. split; [done|].
  destruct (decide (plot_type_of self = boxplot)) as [Hbox|Hbox].
  - split; [|split].
    + rewrite !dict_get_set. rewrite decide_False by done. by rewrite decide_True.
    + rewrite dict_get_set. by rewrite decide_True.
    + intros k Hk1 Hk2. rewrite !dict_get_set. by rewrite !decide_False by done.
  - split; [|split].
    + rewrite dict_get_set. by rewrite decide_True.
    + rewrite dict_get_set. by rewrite decide_False.
    + intros k Hk1 Hk2. rewrite dict_get_set. by rewrite decide_False by done.
Qed.

Lemma rendered_style_witness :
  ∃ r,
    __call__ {| plot_type_of := boxplot; size := STuple [VInt 5; VInt 5] |} false 1
      [("grid", SScalar (VInt 1))]
    = Ok r ∧
    style r = [("grid", SScalar (VInt 1)); ("figsize", STuple [VInt 5; VInt 5]);
               ("return_type", SScalar (VStr "axes"))].
Proof.
  destruct (__call__ {| plot_type_of := boxplot; size := STuple [VInt 5; VInt 5] |} false 1
              [("grid", SScalar (VInt 1))]) as [r|c msg] eqn:Hcall;
    [|vm_compute in Hcall; discriminate].
  destruct (rendered_style _ _ _ _ r Hcall) as (allowed & _ & _ & _ & Hstyle & _).
  exists r. split; [reflexivity|]. rewrite Hstyle. vm_compute. reflexivity.
Defined.

Lemma py_list_get_nonneg {A} (l : list A) (n : Z) (x : A) :
  (0 ≤ n)%Z → l !! Z.to_nat n = Some x → py_list_get l n = Ok x.
Proof.
  intros Hn Hx. unfold py_list_get.
  rewrite (proj2 (Z.leb_le 0 n)) by done. by rewrite Hx.
Qed.

Lemma py_list_get_negative {A} (l : list A) (n : Z) (x : A) :
  (n < 0)%Z → (- Z.of_nat (length l) ≤ n)%Z →
  l !! (length l - Z.to_nat (- n))%nat = Some x → py_list_get l n = Ok x.
Proof.
  intros Hn Hlow Hx. unfold py_list_get.
  rewrite (proj2 (Z.leb_gt 0 n)) by done.
  rewrite (proj2 (Z.leb_le (- Z.of_nat (length l)) n)) by done.
  replace (Z.to_nat (Z.of_nat (length l) + n)) with (length l - Z.to_nat (- n))%nat by lia.
  by rewrite Hx.
Qed.

Lemma py_list_get_nil {A} (n : Z) :
  py_list_get (@nil A) n = Raise IndexError "list index out of range".
Proof.
  unfold py_list_get. destruct (0 <=? n)%Z; [done|].
  by destruct (- Z.of_nat (length (@nil A)) <=? n)%Z.
Qed.

(** X14: redrawing the frame [n] of a stack of views. For a position
    that is not negative, on a stack that has views, the view at the
    position is drawn, or the last view when the position is past the
    end, and nothing is raised; a negative position counts from the end
    of the stack; a stack without views raises [IndexError]. The axis is
    cleared first for the plot types [plot] and [boxplot] only. *)
Theorem update_frame_clamps {A} (self : Plot) (views : list A) (n : Z) :
  ((0 ≤ n)%Z → views ≠ [] →
   ∃ view,
     views !! (Z.to_nat n `min` (length views - 1))%nat = Some view ∧
     update_frame self views n
     = Ok {| position := Z.of_nat (Z.to_nat n `min` (length views - 1));
             drawn := view;
             cleared := bool_decide (plot_type_of self = plot ∨
                                     plot_type_of self = boxplot) |}) ∧
  ((n < 0)%Z → (- Z.of_nat (length views) ≤ n)%Z →
   ∃ view,
     views !! (length views - Z.to_nat (- n))%nat = Some view ∧
     position <$> update_frame self views n = Ok n ∧
     drawn <$> update_frame self views n = Ok view) ∧
  (views = [] → update_frame self views n = Raise IndexError "list index out of range").
Proof.
  assert (Hcleared : negb (bool_decide (plot_type_of self ∈ [hist; scatter_matrix]))
                     = bool_decide (plot_type_of self = plot ∨ plot_type_of self = boxplot)).
  { destruct (plot_type_of self); reflexivity. }
  split; [|split].
  - intros Hn Hne.
    assert (Hlen : (0 < length views)%nat) by (destruct views; [done|simpl; lia]).
    destruct (lookup_lt_is_Some_2 views (Z.to_nat n `min` (length views - 1))%nat)
      as [view Hview]; [lia|].
    exists view. split; [done|]. unfold update_frame. rewrite Hcleared.
    destruct (Z.ltb_spec n (Z.of_nat (length views))) as [Hlt|Hge]; cbv beta iota zeta.
    + replace (Z.to_nat n `min` (length views - 1))%nat with (Z.to_nat n) in * by lia.
      rewrite (py_list_get_nonneg views n view) by done.
      rewrite result_bind_ok. by rewrite Z2Nat.id by done.
    + replace (Z.to_nat n `min` (length views - 1))%nat with (length views - 1)%nat
        in * by lia.
      rewrite (py_list_get_nonneg views (Z.of_nat (length views) - 1) view);
        [|lia|by replace (Z.to_nat (Z.of_nat (length views) - 1))
                    with (length views - 1)%nat by lia].
      rewrite result_bind_ok. do 2 f_equal. lia.
  - intros Hneg Hlow.
    destruct (lookup_lt_is_Some_2 views (length views - Z.to_nat (- n))%nat)
      as [view Hview]; [lia|].
    exists view. split; [done|]. unfold update_frame.
    destruct (Z.ltb_spec n (Z.of_nat (length views))) as [Hlt|Hge]; [|lia].
    cbv beta iota zeta.
    by rewrite (py_list_get_negative views n view).
  - intros ->. unfold update_frame. cbv zeta. by rewrite py_list_get_nil.
Qed.

Lemma update_frame_clamps_witness :
  update_frame {| plot_type_of := boxplot; size := STuple [VInt 5; VInt 5] |}
    [2%positive; 4%positive; 6%positive] 7
  = Ok {| position := 2; drawn := 6%positive; cleared := true |}.
Proof.
  destruct (proj1 (update_frame_clamps
                     {| plot_type_of := boxplot; size := STuple [VInt 5; VInt 5] |}
                     [2%positive; 4%positive; 6%positive] 7))
    as (view & Hview & Hupdate); [lia|done|].
  vm_compute in Hview. injection Hview as <-. exact Hupdate.
Defined.
End PlotMore.

(** ** Reductions, from the wrapper *)

Section ExportReduce.
Import DFrameView.

Lemma Forall2_impl_elem {A B} (P Q : A → B → Prop) (l : list A) (k : list B) :
  Forall2 P l k → (∀ x y, x ∈ l → P x y → Q x y) → Forall2 Q l k.
Proof.
  induction 1 as [|x y l k Hxy _ IH]; intros Himpl; constructor.
  - apply Himpl; [by left|done].
  - apply IH. intros x' y' Hx'. apply Himpl. by right.
Qed.

(** X15: the table of a wrapper with the reduction [sum], without stack
    dimensions, over a rectangular frame of 64-bit integers that has
    rows, all with the same values in the view dimensions: it has one
    entry, the sum of the value dimension over all
    the rows, wrapped to 64 bits, under the shared values, or under the
    name of the value dimension when there is no view dimension, in
    which case the table is built without value and dimensions. *)
Theorem table_of_sum (h : gmap ref pyobj) (self : ref) (v : View) (frame : DataFrame)
    (value_dim : string) (indices : list value) (view_dims : list string)
    (xs : list value) (zs : list Z) :
  h !! self = Some (ODFrameView v) →
  h !! data v = Some (ODataFrame frame) →
  (∀ d, d ∈ value_dim :: view_dims → d ∈ dimension_labels v) →
  (∀ d, d ∈ value_dim :: view_dims → d ∈ columns frame) →
  rectangular frame →
  integer_frame frame →
  rows frame ≠ [] →
  Forall2 (λ r z, row_cell (columns frame) r.2 value_dim = Some (VInt z)) (rows frame) zs →
  Forall (λ r, mapM (row_cell (columns frame) r.2) view_dims = Some xs) (rows frame) →
  table self value_dim indices (Some py_sum) view_dims [] h
  = Ok (EView {| view_type_of := Table;
                 view_dict := [(shared_key value_dim view_dims xs,
                                Scalar (VInt (wrap64 (sum_Z zs))))];
                 view_label := label v;
                 view_value := match view_dims with [] => None | _ => Some value_dim end;
                 view_dimensions := match view_dims with
                                    | [] => None
                                    | _ => Some view_dims
                                    end |}, h).
Proof.
  intros Hself Hdata Hlabels Hcols Hrect _ Hne Hzs Hxs.
  set (wf := working_frame v frame (value_dim :: view_dims)).
  destruct (working_frame_rows v frame (value_dim :: view_dims) Hrect)
    as (T & Hrows & Hcells).
  fold wf in Hrows, Hcells.
  assert (Hvalues : values wf = T <$> values frame).
  { unfold values. rewrite Hrows, <- !list_fmap_compose. by apply list_fmap_ext. }
  assert (Hred : reduce_group value_dim py_sum view_dims wf
                 = Ok [(shared_key value_dim view_dims xs,
                        Scalar (VInt (wrap64 (sum_Z zs))))]).
  { apply reduce_group_single_key.
    - rewrite Hvalues. unfold values. destruct (rows frame); [done|]. done.
    - rewrite Hvalues. unfold values. rewrite <- list_fmap_compose.
      apply Forall2_fmap_l. eapply Forall2_impl_elem; [exact Hzs|].
      intros r z Hr Hz. simpl. rewrite (Hcells r value_dim Hr); [done|by left|].
      apply Hcols. by left.
    - rewrite Hvalues. unfold values. rewrite <- list_fmap_compose.
      apply Forall_fmap. apply Forall_forall. intros r Hr. simpl.
      rewrite <- (proj1 (Forall_forall _ _) Hxs r Hr).
      apply Forall_mapM_ext, Forall_forall. intros d Hd.
      apply (Hcells r d Hr); [by right|]. apply Hcols. by right. }
  unfold table. rewrite (export_unstacked h self v frame) by done.
  fold wf. unfold export_group. rewrite Hred, result_bind_ok.
  cbn [ls_view_dimensions ls_indices ls_stack]. unfold _create_table.
  destruct view_dims as [|d ds]; [done|].
  by rewrite dim_dict_get_id.
Qed.

Lemma table_of_sum_witness :
  table 2%positive "v" [] (Some py_sum) [] [] example_heap
  = Ok (EView {| view_type_of := Table;
                 view_dict := [(KBare (VStr "v"), Scalar (VInt 100))];
                 view_label := "L"; view_value := None; view_dimensions := None |},
        example_heap).
Proof.
  apply (table_of_sum example_heap 2%positive example_view example_frame "v" [] [] []
           [10; 20; 30; 40]%Z).
  - reflexivity.
  - reflexivity.
  - intros d Hd. apply list_elem_of_singleton in Hd as ->. decide_by_computing.
  - intros d Hd. apply list_elem_of_singleton in Hd as ->. decide_by_computing.
  - intros r Hr. repeat (apply elem_of_cons in Hr as [->|Hr]);
      [| | | |by apply elem_of_nil in Hr]; reflexivity.
  - exact example_frame_integers.
  - done.
  - repeat constructor.
  - repeat constructor.
Defined.

(** *** Stacks of reductions *)

Lemma insert_key_perm (k : list value) (ks : list (list value)) :
  insert_key k ks ≡ₚ k :: ks.
Proof.
  induction ks as [|k' ks IH]; [done|]. simpl.
  destruct (key_leb k k'); [done|]. rewrite IH. apply Permutation_swap.
Qed.

Lemma sort_keys_perm (ks : list (list value)) : sort_keys ks ≡ₚ ks.
Proof.
  induction ks as [|k ks IH]; [done|]. simpl.
  by rewrite insert_key_perm, IH.
Qed.

(** The keys of the groups of a frame are distinct. *)
Lemma groupby_keys_distinct (dims : list string) (df : DataFrame)
    (groups : list (list value * DataFrame)) :
  groupby dims df = Ok groups → NoDup groups.*1.
Proof.
  unfold groupby. destruct (mapR _ (rows df)) as [keyed|c msg]; [|done].
  simpl. intros [= <-].
  assert (Hkeys : ∀ (F : list value → DataFrame) (l : list (list value)),
            ((λ k, (k, F k)) <$> l).*1 = l).
  { intros F l. induction l as [|k l IH]; [done|].
    rewrite !fmap_cons. cbn [fst]. f_equal. exact IH. }
  rewrite Hkeys, sort_keys_perm. apply NoDup_remove_dups.
Qed.

Lemma dict_set_fresh {K V} `{EqDecision K} (k : K) (x : V) (d : list (K * V)) :
  k ∉ d.*1 → dict_set k x d = d ++ [(k, x)].
Proof.
  induction d as [|[k' x'] d IH]; intros Hk; [done|].
  simpl in *. apply not_elem_of_cons in Hk as [Hne Hk].
  rewrite decide_False by done. by rewrite IH.
Qed.

Lemma export_group_reduce (self : View) (value_dim : string)
    (f : list value → result value) (view_dims : list string)
    (view_method : View → list (key * cell) → string → list string → result ViewData)
    (st : loop_state) (stack_key : option (list value)) (g : DataFrame) :
  export_group self value_dim (Some f) view_dims view_method st (stack_key, g)
  = (temp_dict ← reduce_group value_dim f view_dims g;
     view ← view_method self temp_dict value_dim (ls_view_dimensions st);
     Ok {| ls_indices := ls_indices st;
           ls_view_dimensions := ls_view_dimensions st;
           ls_stack := dict_set stack_key view (ls_stack st) |}).
Proof. reflexivity. Qed.

(** The loop over stack elements with distinct keys, with a reduction:
    each element adds its view to the stack, and the other variables of
    the loop stay. *)
Lemma reduce_loop (self : View) (value_dim : string)
    (f : list value → result value) (view_dims : list string)
    (view_method : View → list (key * cell) → string → list string → result ViewData)
    (groups : list (list value * DataFrame)) :
  ∀ (items : list (option (list value) * ViewData)) (st : loop_state),
    NoDup groups.*1 →
    (∀ k, k ∈ groups.*1 → Some k ∉ (ls_stack st).*1) →
    Forall2 (λ kg item,
        item.1 = Some kg.1 ∧
        ∃ temp_dict, reduce_group value_dim f view_dims kg.2 = Ok temp_dict ∧
                     view_method self temp_dict value_dim (ls_view_dimensions st)
                     = Ok item.2) groups items →
    foldM (export_group self value_dim (Some f) view_dims view_method) st
      (prod_map Some id <$> groups)
    = Ok {| ls_indices := ls_indices st;
            ls_view_dimensions := ls_view_dimensions st;
            ls_stack := ls_stack st ++ items |}.
Proof.
  induction groups as [|[k g] groups IH]; intros items st Hnodup Hfresh Hitems.
  - apply Forall2_nil_inv_l in Hitems as ->. rewrite app_nil_r. by destruct st.
  - apply Forall2_cons_inv_l in Hitems
      as ([k' view] & items' & (Hk & temp_dict & Hred & Hview) & Hitems & ->).
    simpl in Hk, Hred, Hview. subst k'.
    simpl in Hnodup. apply NoDup_cons in Hnodup as [Hk Hnodup].
    rewrite fmap_cons.
    change (foldM ?F st (?x :: ?l)) with (F st x ≫= λ st', foldM F st' l).
    change (prod_map Some id (k, g)) with (Some k, g).
    rewrite export_group_reduce, Hred, result_bind_ok, Hview, !result_bind_ok.
    rewrite dict_set_fresh by (apply Hfresh; by left).
    cbv beta. rewrite (IH items'); [|done| |done].
    + cbn [ls_indices ls_view_dimensions ls_stack]. by rewrite <- app_assoc.
    + intros k' Hk'. cbn [ls_stack]. rewrite fmap_app. intros Hin.
      apply elem_of_app in Hin as [Hin|Hin].
      * revert Hin. apply Hfresh. by right.
      * apply list_elem_of_singleton in Hin. simpl in Hin. by injection Hin as ->.
Qed.

(** X16: an export with a reduction and stack dimensions returns a stack
    with one view per group of the working frame, in the order of the
    groups and under the key of the group: the view built from the
    reduction of the group alone. *)
Theorem stack_of_reductions (h : gmap ref pyobj) (self : ref) (v : View)
    (frame : DataFrame) (value_dim : string) (indices : list value)
    (f : list value → result value) (view_dims stack_dims : list string)
    (view_method : View → list (key * cell) → string → list string → result ViewData)
    (stack_type : stack_type) (groups : list (list value * DataFrame))
    (items : list (option (list value) * ViewData)) :
  h !! self = Some (ODFrameView v) →
  h !! data v = Some (ODataFrame frame) →
  (∀ d, d ∈ value_dim :: view_dims ++ stack_dims → d ∈ dimension_labels v) →
  stack_dims ≠ [] →
  groupby stack_dims (working_frame v frame (value_dim :: view_dims ++ stack_dims))
  = Ok groups →
  Forall2 (λ kg item,
      item.1 = Some kg.1 ∧
      ∃ temp_dict, reduce_group value_dim f view_dims kg.2 = Ok temp_dict ∧
                   view_method v temp_dict value_dim view_dims = Ok item.2)
    groups items →
  _export_dataview self value_dim indices (Some f) view_dims stack_dims view_method
    stack_type h
  = Ok (EStack stack_type stack_dims items, h).
Proof.
  intros Hself Hdata Hlabels Hstack Hgroups Hitems. unfold _export_dataview.
  rewrite (M_bind_ok _ _ h h v (get_view_ok _ _ _ Hself)).
  rewrite (M_bind_ok _ _ h h frame (get_frame_ok _ _ _ Hdata)).
  unfold lift, export_frame.
  rewrite (check_dimensions_ok _ _ Hlabels), result_bind_ok.
  fold (working_frame v frame (value_dim :: view_dims ++ stack_dims)).
  destruct stack_dims as [|s ss]; [done|].
  rewrite Hgroups. cbn [fmap result_fmap]. rewrite result_bind_ok.
  rewrite (reduce_loop v value_dim f view_dims view_method groups items).
  - rewrite result_bind_ok. cbn [ls_stack app]. by rewrite dim_dict_get_id.
  - by eapply groupby_keys_distinct.
  - intros k _. apply not_elem_of_nil.
  - done.
Qed.

Lemma stack_of_reductions_witness :
  ∃ view1 view2,
    table 2%positive "v" [] (Some py_sum) [] ["s"] example_heap
    = Ok (EStack TableStack ["s"] [(Some [VInt 1], view1); (Some [VInt 2], view2)],
          example_heap) ∧
    view_dict view1 = [(KBare (VStr "v"), Scalar (VInt 30))] ∧
    view_dict view2 = [(KBare (VStr "v"), Scalar (VInt 70))].
Proof.
  eexists _, _. split; [|split].
  - apply (stack_of_reductions example_heap 2%positive example_view example_frame "v" []
             py_sum [] ["s"] _create_table TableStack
             [([VInt 1], example_group_1); ([VInt 2], example_group_2)]).
    + reflexivity.
    + reflexivity.
    + intros d Hd. repeat (apply elem_of_cons in Hd as [->|Hd]);
        [| |by apply elem_of_nil in Hd]; decide_by_computing.
    + done.
    + reflexivity.
    + repeat (constructor;
              [split; [reflexivity|eexists; split; [reflexivity|reflexivity]]|]).
      constructor.
  - reflexivity.
  - reflexivity.
Defined.
End ExportReduce.

(** ** Exports, from the wrapper *)

Section Exports.
Import DFrameView.





(** *** Reduction with [sum] *)

Lemma Forall_exists_Forall2 {A B} (P : A → B → Prop) (l : list A) :
  Forall (λ x, ∃ y, P x y) l → ∃ k, Forall2 P l k.
Proof.
  induction 1 as [|x l [y Hy] _ [k Hk]].
  - exists []. constructor.
  - exists (y :: k). by constructor.
Qed.

(** An export with a reduction and stack dimensions: one view per group
    of the working frame, under the key of the group. *)
Lemma export_stacked_reductions (h : gmap ref pyobj) (self : ref) (v : View)
    (frame : DataFrame) (value_dim : string) (indices : list value)
    (f : list value → result value) (view_dims stack_dims : list string)
    (view_method : View → list (key * cell) → string → list string → result ViewData)
    (stack_type : stack_type) (groups : list (list value * DataFrame))
    (items : list (option (list value) * ViewData)) :
  h !! self = Some (ODFrameView v) →
  h !! data v = Some (ODataFrame frame) →
  (∀ d, d ∈ value_dim :: view_dims ++ stack_dims → d ∈ dimension_labels v) →
  stack_dims ≠ [] →
  groupby stack_dims (working_frame v frame (value_dim :: view_dims ++ stack_dims))
  = Ok groups →
  Forall2 (λ kg item,
      item.1 = Some kg.1 ∧
      ∃ temp_dict, reduce_group value_dim f view_dims kg.2 = Ok temp_dict ∧
                   view_method v temp_dict value_dim view_dims = Ok item.2)
    groups items →
  _export_dataview self value_dim indices (Some f) view_dims stack_dims view_method
    stack_type h
  = Ok (EStack stack_type stack_dims items, h).
Proof.
  intros Hself Hdata Hlabels Hstack Hgroups Hitems. unfold _export_dataview.
  rewrite (M_bind_ok _ _ h h v (get_view_ok _ _ _ Hself)).
  rewrite (M_bind_ok _ _ h h frame (get_frame_ok _ _ _ Hdata)).
  unfold lift, export_frame.
  rewrite (check_dimensions_ok _ _ Hlabels), result_bind_ok.
  fold (working_frame v frame (value_dim :: view_dims ++ stack_dims)).
  destruct stack_dims as [|s ss]; [done|].
  rewrite Hgroups. cbn [fmap result_fmap]. rewrite result_bind_ok.
  rewrite (reduce_loop v value_dim f view_dims view_method groups items).
  - rewrite result_bind_ok. cbn [ls_stack app]. by rewrite dim_dict_get_id.
  - by eapply groupby_keys_distinct.
  - intros k _. apply not_elem_of_nil.
  - done.
Qed.

(** C4, as the spec has it, fails: the cells of a column of integers
    are 64-bit integers, and their sum wraps around. Two rows with the
    value 2^62 give one entry, whose value is -2^63 and not the sum of
    the two values. *)
Lemma sum_of_large_values_wraps :
  ∃ view,
    table 2%positive "v" [] (Some py_sum) ["x"] [] large_values_heap
    = Ok (EView view, large_values_heap) ∧
    view_dict view = [(KTuple [VInt 7], Scalar (VInt (- 2 ^ 63)))] ∧
    (- 2 ^ 63 ≠ 2 ^ 62 + 2 ^ 62)%Z.
Proof. eexists. split; [vm_compute; reflexivity|]. split; [reflexivity|lia]. Qed.

(** C4, amended: an export of a frame of 64-bit integers with the
    reduction [sum], over a group that has rows, all with the same
    values in the view dimensions, gives for the group a view with
    exactly one entry, under the shared key, whose value is the sum of
    the value dimension over all the rows of the group, wrapped to 64
    bits: the arithmetic sum when it fits in 64 bits. Without stack
    dimensions the group is the frame of the wrapper; with stack
    dimensions there is one such view per group of the working frame.
    The indices given have no effect on the result. *)
Theorem export_sum_single_entry (h : gmap ref pyobj) (self : ref) (v : View)
    (frame : DataFrame) (value_dim : string) (indices : list value)
    (view_dims : list string)
    (view_method : View → list (key * cell) → string → list string → result ViewData)
    (stack_type : stack_type) :
  h !! self = Some (ODFrameView v) →
  h !! data v = Some (ODataFrame frame) →
  integer_frame frame →
  (∀ td, ∃ view, view_method v td value_dim view_dims = Ok view ∧ view_dict view = td) →
  (∀ xs zs,
     (∀ d, d ∈ value_dim :: view_dims → d ∈ dimension_labels v) →
     (∀ d, d ∈ value_dim :: view_dims → d ∈ columns frame) →
     rectangular frame →
     rows frame ≠ [] →
     Forall2 (λ r z, row_cell (columns frame) r.2 value_dim = Some (VInt z))
       (rows frame) zs →
     Forall (λ r, mapM (row_cell (columns frame) r.2) view_dims = Some xs) (rows frame) →
     ∃ view,
       _export_dataview self value_dim indices (Some py_sum) view_dims [] view_method
         stack_type h
       = Ok (EView view, h) ∧
       view_dict view
       = [(shared_key value_dim view_dims xs, Scalar (VInt (wrap64 (sum_Z zs))))] ∧
       (int64 (sum_Z zs) → wrap64 (sum_Z zs) = sum_Z zs)) ∧
  (∀ stack_dims groups,
     (∀ d, d ∈ value_dim :: view_dims ++ stack_dims → d ∈ dimension_labels v) →
     stack_dims ≠ [] →
     groupby stack_dims (working_frame v frame (value_dim :: view_dims ++ stack_dims))
     = Ok groups →
     Forall (λ kg, ∃ xs zs,
         values kg.2 ≠ [] ∧
         Forall2 (λ row z, row_cell (columns kg.2) row value_dim = Some (VInt z))
           (values kg.2) zs ∧
         Forall (λ row, mapM (row_cell (columns kg.2) row) view_dims = Some xs)
           (values kg.2)) groups →
     ∃ items,
       _export_dataview self value_dim indices (Some py_sum) view_dims stack_dims
         view_method stack_type h
       = Ok (EStack stack_type stack_dims items, h) ∧
       Forall2 (λ kg item,
           item.1 = Some kg.1 ∧
           ∃ xs zs,
             Forall2 (λ row z, row_cell (columns kg.2) row value_dim = Some (VInt z))
               (values kg.2) zs ∧
             Forall (λ row, mapM (row_cell (columns kg.2) row) view_dims = Some xs)
               (values kg.2) ∧
             view_dict item.2
             = [(shared_key value_dim view_dims xs, Scalar (VInt (wrap64 (sum_Z zs))))])
         groups items) ∧
  (∀ indices' stack_dims,
     _export_dataview self value_dim indices (Some py_sum) view_dims stack_dims
       view_method stack_type h
     = _export_dataview self value_dim indices' (Some py_sum) view_dims stack_dims
         view_method stack_type h).
Proof.
  intros Hself Hdata _ Hmethod. split; [|split].
  - intros xs zs Hlabels Hcols Hrect Hne Hzs Hxs.
    set (wf := working_frame v frame (value_dim :: view_dims)).
    destruct (working_frame_rows v frame (value_dim :: view_dims) Hrect)
      as (T & Hrows & Hcells).
    fold wf in Hrows, Hcells.
    assert (Hvalues : values wf = T <$> values frame).
    { unfold values. rewrite Hrows, <- !list_fmap_compose. by apply list_fmap_ext. }
    assert (Hred : reduce_group value_dim py_sum view_dims wf
                   = Ok [(shared_key value_dim view_dims xs,
                          Scalar (VInt (wrap64 (sum_Z zs))))]).
    { apply reduce_group_single_key.
      - rewrite Hvalues. unfold values. destruct (rows frame); [done|]. done.
      - rewrite Hvalues. unfold values. rewrite <- list_fmap_compose.
        apply Forall2_fmap_l. eapply Forall2_impl_elem; [exact Hzs|].
        intros r z Hr Hz. simpl. rewrite (Hcells r value_dim Hr); [done|by left|].
        apply Hcols. by left.
      - rewrite Hvalues. unfold values. rewrite <- list_fmap_compose.
        apply Forall_fmap. apply Forall_forall. intros r Hr. simpl.
        rewrite <- (proj1 (Forall_forall _ _) Hxs r Hr).
        apply Forall_mapM_ext, Forall_forall. intros d Hd.
        apply (Hcells r d Hr); [by right|]. apply Hcols. by right. }
    destruct (Hmethod [(shared_key value_dim view_dims xs,
                        Scalar (VInt (wrap64 (sum_Z zs))))]) as (view & Hview & Hdict).
    exists view. split; [|split; [done|apply wrap64_int64]].
    rewrite (export_unstacked h self v frame) by done.
    fold wf. unfold export_group. rewrite Hred, result_bind_ok.
    cbn [ls_view_dimensions ls_indices ls_stack]. rewrite Hview, result_bind_ok.
    cbn [ls_stack dict_set dict_get]. by rewrite decide_True.
  - intros stack_dims groups Hlabels Hstack Hgroups Hcells.
    assert (∃ items,
              Forall2 (λ kg item,
                  item.1 = Some kg.1 ∧
                  ∃ xs zs,
                    Forall2 (λ row z, row_cell (columns kg.2) row value_dim
                                      = Some (VInt z)) (values kg.2) zs ∧
                    Forall (λ row, mapM (row_cell (columns kg.2) row) view_dims = Some xs)
                      (values kg.2) ∧
                    reduce_group value_dim py_sum view_dims kg.2
                    = Ok [(shared_key value_dim view_dims xs,
                           Scalar (VInt (wrap64 (sum_Z zs))))] ∧
                    view_method v [(shared_key value_dim view_dims xs,
                                    Scalar (VInt (wrap64 (sum_Z zs))))] value_dim view_dims
                    = Ok item.2 ∧
                    view_dict item.2
                    = [(shared_key value_dim view_dims xs,
                        Scalar (VInt (wrap64 (sum_Z zs))))])
                groups items) as [items Hitems].
    { apply Forall_exists_Forall2. eapply Forall_impl; [exact Hcells|].
      intros [k g] (xs & zs & Hne & Hzs & Hxs). cbn [fst snd] in *.
      destruct (Hmethod [(shared_key value_dim view_dims xs,
                          Scalar (VInt (wrap64 (sum_Z zs))))]) as (view & Hview & Hdict).
      exists (Some k, view). split; [done|]. exists xs, zs.
      split; [done|]. split; [done|].
      split; [by apply reduce_group_single_key|]. done. }
    exists items. split.
    + apply (export_stacked_reductions h self v frame value_dim indices py_sum view_dims
               stack_dims view_method stack_type groups items Hself Hdata Hlabels Hstack
               Hgroups).
      eapply Forall2_impl; [exact Hitems|].
      intros kg item (Hkey & xs & zs & _ & _ & Hred & Hview & _).
      split; [done|]. by eexists.
    + eapply Forall2_impl; [exact Hitems|].
      intros kg item (Hkey & xs & zs & Hzs & Hxs & _ & _ & Hdict).
      split; [done|]. by exists xs, zs.
  - intros indices' stack_dims. unfold _export_dataview.
    rewrite !(M_bind_ok _ _ h h v (get_view_ok _ _ _ Hself)).
    rewrite !(M_bind_ok _ _ h h frame (get_frame_ok _ _ _ Hdata)).
    by rewrite (export_frame_reduce_ignores_indices v frame value_dim indices indices').
Qed.

(** In the example every row has the same [x], and the values sum to
    100, whatever indices are given. *)
Lemma export_sum_single_entry_witness :
  ∃ view,
    _export_dataview 2%positive "v" [VInt 3] (Some py_sum) ["x"] [] _create_heatmap
      DataStack example_heap
    = Ok (EView view, example_heap) ∧
    view_dict view = [(KTuple [VInt 7], Scalar (VInt 100))].
Proof.
  destruct (proj1 (export_sum_single_entry example_heap 2%positive example_view
                     example_frame "v" [VInt 3] ["x"] _create_heatmap DataStack
                     eq_refl eq_refl example_frame_integers
                     (λ td, ex_intro _ _ (conj eq_refl eq_refl)))
              [VInt 7] [10; 20; 30; 40]%Z)
    as (view & Hexport & Hdict & _).
  - intros d Hd. repeat (apply elem_of_cons in Hd as [->|Hd]);
      [| |by apply elem_of_nil in Hd]; decide_by_computing.
  - intros d Hd. repeat (apply elem_of_cons in Hd as [->|Hd]);
      [| |by apply elem_of_nil in Hd]; decide_by_computing.
  - intros r Hr. repeat (apply elem_of_cons in Hr as [->|Hr]);
      [| | | |by apply elem_of_nil in Hr]; reflexivity.
  - done.
  - repeat constructor.
  - repeat constructor.
  - exists view. split; [exact Hexport|exact Hdict].
Defined.

(** *** The index 0 of a heat map *)



End Exports.
